(** * erfgoedbot: the Messenger webhook relay of [app.js]

    A shallow embedding of the request handling code of the bot: the
    webhook dispatcher, the message and postback handlers, the search
    completion callbacks, the send helpers and the signature check.

    Two files are embedded.  Module [App] follows [src/src/app.js], the
    self-contained version of the server.  Module [Refactored] follows the
    second version of the server, in which the send helpers, the loggers and
    the signature check have moved to [fb/fb-lib]; calls into that library
    are kept as opaque [Fb] effects.

    Handlers are modelled as functions to the list of effects they perform,
    in program order.  Asynchronous continuations (the callbacks handed to
    the search collaborator, to [request] and to [setTimeout]) are
    defunctionalised: a closure is a constructor holding its captured
    variables, and a function of the module runs it.  A call of
    [callSendAPI] by a handler is one effect; the body of [callSendAPI],
    which depends on the mode of the process, is run for each call by the
    event loop of module [Loop]. *)

From Stdlib Require Import ZArith Lia List Bool.
From Stdlib Require Import Strings.String Strings.Ascii.
From Stdlib Require Import DecimalString.
From Stdlib Require DecimalZ.
Import ListNotations.

Local Open Scope Z_scope.
Local Open Scope string_scope.
Local Open Scope list_scope.

(** ** JavaScript strings and values

    A string is a sequence of UTF-16 code units.  The embedding covers the
    units below 256, Basic Latin and the Latin-1 Supplement, one unit per
    character of a Rocq string.  On these units [trim] and [toLowerCase]
    are those of ECMAScript: the white space and line terminators are the
    units 9 to 13, 32 and 160 (no-break space); the letters with a
    lower-case form are A to Z and the units 192 to 222 except 215 (the
    multiplication sign), each 32 below its lower-case form. *)

Module JsString.

Definition isWhiteSpace (c : ascii) : bool :=
  let n := nat_of_ascii c in
  ((9 <=? n)%nat && (n <=? 13)%nat) || (n =? 32)%nat || (n =? 160)%nat.

Definition lowerChar (c : ascii) : ascii :=
  let n := nat_of_ascii c in
  if (((65 <=? n)%nat && (n <=? 90)%nat)
      || ((192 <=? n)%nat && (n <=? 222)%nat && negb (n =? 215)%nat))%bool
  then ascii_of_nat (n + 32) else c.

Fixpoint toLowerCase (s : string) : string :=
  match s with
  | EmptyString => EmptyString
  | String c s' => String (lowerChar c) (toLowerCase s')
  end.

Fixpoint trimStart (s : string) : string :=
  match s with
  | EmptyString => EmptyString
  | String c s' => if isWhiteSpace c then trimStart s' else s
  end.

Fixpoint trimEnd (s : string) : string :=
  match s with
  | EmptyString => EmptyString
  | String c s' =>
      match trimEnd s' with
      | EmptyString => if isWhiteSpace c then EmptyString else String c EmptyString
      | t => String c t
      end
  end.

Definition trim (s : string) : string := trimEnd (trimStart s).

(** [s.indexOf(c)] for a one-unit needle: the first position, or -1. *)
Fixpoint indexOf (s : string) (c : ascii) : Z :=
  match s with
  | EmptyString => -1
  | String a s' =>
      if Ascii.eqb a c then 0
      else let i := indexOf s' c in if (i =? -1)%Z then -1 else i + 1
  end.

(** [s.split(c)] for a one-unit separator: cut at every occurrence; the
    result always has one element more than there are separators. *)
Fixpoint split (s : string) (c : ascii) : list string :=
  match s with
  | EmptyString => [EmptyString]
  | String a s' =>
      if Ascii.eqb a c then EmptyString :: split s' c
      else match split s' c with
           | h :: t => String a h :: t
           | [] => [String a EmptyString]
           end
  end.

(** Truthiness of a value that is a string or [undefined]. *)
Definition truthy (v : option string) : bool :=
  match v with
  | Some EmptyString | None => false
  | Some _ => true
  end.

(** A value that is a string or [undefined] inside a template literal. *)
Definition interpolate (v : option string) : string :=
  match v with
  | Some s => s
  | None => "undefined"
  end.

(** An integer inside a template literal. *)
Definition ofNumber (n : Z) : string := NilZero.string_of_int (Z.to_int n).

(** Lower-case hexadecimal, as [digest('hex')] prints a byte sequence. *)
Definition hexDigit (n : N) : ascii :=
  if (n <? 10)%N then ascii_of_N (48 + n) else ascii_of_N (87 + n).

Fixpoint hex (bytes : list N) : string :=
  match bytes with
  | [] => EmptyString
  | b :: bs =>
      String (hexDigit ((b / 16) mod 16)) (String (hexDigit (b mod 16)) (hex bs))
  end.

End JsString.

Import JsString.

(** ** The data model *)

(** What the search collaborator hands to its callback. *)
Record ButtonSpec := {
  bs_title : string;
  bs_payload : option string
}.

Record Buttons := {
  buttons_text : string;
  buttons_data : list ButtonSpec
}.

Record ImageResult := {
  img_id : string;
  img_image : string;
  img_label : string;
  img_description : string;
  img_collection : option string;
  img_url : option string;
  img_author : option string
}.

Inductive SearchResult :=
| SRButtons (buttons : Buttons)
| SRImages (images : ImageResult)
| SRText (text : string)
| SROther (type : string).

(** The webhook payload.  The tags of a messaging event are optional
    fields; nothing in the decoding prevents several of them from being
    set at once. *)
Record QuickReply := { qr_payload : string }.

Record Message := {
  is_echo : bool;
  mid : string;
  quick_reply : option QuickReply;
  text : option string
}.

Record Optin := { optin_ref : string }.
Record Delivery := { delivery_mids : option (list string); delivery_watermark : Z }.
Record Postback := { payload : string }.
Record Read := { read_watermark : Z; read_seq : Z }.
Record AccountLinking := { status : string; authorization_code : option string }.

Record MessagingEvent := {
  sender_id : string;
  recipient_id : string;
  timestamp : Z;
  optin : option Optin;
  message : option Message;
  delivery : option Delivery;
  postback : option Postback;
  read : option Read;
  account_linking : option AccountLinking
}.

Record PageEntry := { messaging : list MessagingEvent }.

Record WebhookEnvelope := {
  object : string;
  entry : list PageEntry
}.

(** The JSON bodies posted to the Send API. *)
Inductive Button :=
| PostbackButton (title : string) (payload : option string)
| WebUrlButton (url : string) (title : string).

Inductive Attachment :=
| ImageAttachment (url : string)
| ButtonTemplate (text : string) (buttons : list Button).

Inductive MessageBody :=
| TextBody (text : string) (metadata : string)
| AttachmentBody (attachment : Attachment)
| SenderAction (action : string).

Record MessageData := {
  recipient : string;
  body : MessageBody
}.

(** ** Effects *)

(** The calls on the search collaborator, [bot.js]. *)
Inductive BotRequest :=
| PainterByDate (from to : option string)
| GetMonuments
| RandomArtist
| SearchPainters (query : string)
| PaintingsByArtist (artistId : string).

(** The callbacks handed to the search collaborator: the closure
    [handleSearchResponse] of [receivedMessage] and the arrow function of
    [receivedPostback], each with the [senderID] it captures. *)
Inductive Callback :=
| HandleSearchResponse (senderID : string)
| PostbackResponse (senderID : string).

(** The closures handed to [setTimeout]. *)
Inductive Task :=
| SocialFeedback (recipientId : string)
| MoreInfoLink (senderID : string) (images : ImageResult)
| CollectionFollowUp (senderID : string) (images : ImageResult).

(** The calls into [fb/fb-lib] made by the refactored server. *)
Inductive FbCall :=
| FbSendTextMessage (recipientId : string) (messageText : string)
| FbSendTypingOn (recipientId : string)
| FbSendTypingOff (recipientId : string)
| FbSendImageMessage (recipientId : string) (url : string)
| FbSendButtonMessage (recipientId : string) (buttons : Buttons)
| FbSendURL (recId : string) (url : string)
| FbReceivedDeliveryConfirmation (event : MessagingEvent)
| FbReceivedMessageRead (event : MessagingEvent).

(** One observable action.  [ConsoleLog] and [ConsoleError] keep the
    format string of the call and drop its arguments.  [CallSendAPI] is
    the call [callSendAPI(messageData)] made by a handler; the body of
    that function, [App.callSendAPI] below, is run for every such call by
    the event loop and does one of two things: [ConsoleLogBody], the line
    [console.log(JSON.stringify(messageData, null, 2))] of mock mode, or
    [Request], the POST of the body to the Send API. *)
Inductive Effect :=
| ConsoleLog (fmt : string)
| ConsoleError (fmt : string)
| CallSendAPI (messageData : MessageData)
| Fb (call : FbCall)
| SetTimeout (task : Task) (ms : Z)
| Bot (request : BotRequest) (callback : Callback)
| SendStatus (code : Z)
| ConsoleLogBody (messageData : MessageData)
| Request (messageData : MessageData).

Definition Trace := list Effect.

(** A function body either returns or throws, after some effects. *)
Inductive Run :=
| Returns (effects : Trace)
| Throws (effects : Trace) (error : string).

(** A finite Number value that is not negative: the double
    [mantissa * 2 ^ exponent], with a mantissa of at most 53 bits. *)
Record Draw := {
  mantissa : Z;
  exponent : Z
}.

(** The values [Math.random()] returns: the doubles from 0 (included) to 1
    (excluded). *)
Definition unitInterval (u : Draw) : Prop :=
  0 <= mantissa u < 2 ^ 53
  /\ -1074 <= exponent u <= 0
  /\ mantissa u < 2 ^ (- exponent u).

(** The double nearest to [m * 2 ^ e], ties to even: a product of more
    than 53 bits loses its low bits. *)
Definition roundToDouble (m e : Z) : Z * Z :=
  let drop := Z.log2 m + 1 - 53 in
  if (drop <=? 0)%Z then (m, e)
  else
    let q := m / 2 ^ drop in
    let r := m mod 2 ^ drop in
    let half := 2 ^ (drop - 1) in
    let up := ((half <? r)%Z || ((half =? r)%Z && Z.odd q))%bool in
    (if up then q + 1 else q, e + drop).

(** [Math.floor] of the double [m * 2 ^ e]. *)
Definition floorOf (m e : Z) : Z :=
  if (0 <=? e)%Z then m * 2 ^ e else m / 2 ^ (- e).

(** [_.random(lower, upper)] of lodash at integer bounds is
    [lower + Math.floor(Math.random() * (upper - lower + 1))], computed on
    doubles: the product of the draw [u] of [Math.random()] by the
    integer is rounded before it is floored. *)
Definition random (lower upper : Z) (u : Draw) : Z :=
  let (m, e) := roundToDouble (mantissa u * (upper - lower + 1)) (exponent u) in
  lower + floorOf m e.

(** [a === b] where [a] is a string or [undefined] and [b] is a string. *)
Definition strictEq (a : option string) (b : string) : bool :=
  match a with
  | Some s => (s =? b)%string
  | None => false
  end.

(** [a != b] where [a] is a string or [undefined] and [b] is a string. *)
Definition looseNeq (a : option string) (b : string) : bool :=
  match a with
  | Some s => negb (s =? b)
  | None => true
  end.

(** The two template literals shared by the message and the postback
    paths: the caption of an image and the address of its Wikidata page. *)
Definition caption (images : ImageResult) : string :=
  ("Je gaat zo zien: " ++ img_label images ++ ", " ++ img_description images)%string.

Definition wikidata (images : ImageResult) : string :=
  ("http://www.wikidata.org/wiki/" ++ img_id images)%string.

(** The line ["=====\n\n"]: five equals signs and two line feeds. *)
Definition separator : string :=
  ("=====" ++ String "010" (String "010" EmptyString))%string.

(** What the [request] library hands to the callback of a Send API call. *)
Record SendApiResponse := {
  statusCode : Z;
  statusMessage : string
}.

Record SendApiBody := {
  body_recipient_id : option string;
  body_message_id : option string;
  body_error : option string
}.

(** ** [src/src/app.js] *)

Module App.

(** The body of [callSendAPI], under the value [MODE] of
    [process.env.MODE] ([None] when the variable is not set): in mock mode
    the body is logged and nothing is posted, otherwise the body is
    posted, with [sendAPICallback] below as callback. *)
Definition callSendAPI (MODE : option string) (messageData : MessageData) : Trace :=
  if strictEq MODE "mock" then [ConsoleLogBody messageData]
  else [Request messageData].

(** The callback handed to [request] by [callSendAPI], run when the HTTP
    call has completed.  Reading [response.statusCode] or [body.error] of
    a missing response or body throws. *)
Definition sendAPICallback (messageData : MessageData) (error : option string)
    (response : option SendApiResponse) (body : option SendApiBody) : Run :=
  let failed :=
    match response, body with
    | Some _, Some _ =>
        Returns [ConsoleError "Failed calling Send API";
                 ConsoleError "Message data was:";
                 ConsoleError separator]
    | _, _ => Throws [] "TypeError"
    end in
  if truthy error then failed
  else
    match response with
    | None => Throws [] "TypeError"
    | Some response =>
        if (statusCode response =? 200)%Z then
          match body with
          | None => Throws [] "TypeError"
          | Some body =>
              let messageId := body_message_id body in
              Returns
                [(if truthy messageId then
                    ConsoleLog "Successfully sent message with id %s to recipient %s"
                  else
                    ConsoleLog "Successfully called Send API for recipient %s");
                 ConsoleLog "Message data was:";
                 ConsoleLog separator]
          end
        else failed
    end.

Definition sendImageMessage (recipientId url : string) : Trace :=
  let url := (url ++ "?width=800")%string in
  [CallSendAPI {| recipient := recipientId;
                  body := AttachmentBody (ImageAttachment url) |}]
  ++ [SetTimeout (SocialFeedback recipientId) 4000].

Definition sendTextMessage (recipientId messageText : string) : Trace :=
  let messageData :=
    {| recipient := recipientId;
       body := TextBody messageText "DEVELOPER_DEFINED_METADATA" |} in
  [CallSendAPI messageData].

Definition sendButtonMessage (recipientId : string) (buttons : Buttons) : Trace :=
  let data :=
    {| recipient := recipientId;
       body := AttachmentBody
                 (ButtonTemplate (buttons_text buttons)
                    (map (fun b => PostbackButton (bs_title b) (bs_payload b))
                         (buttons_data buttons))) |} in
  [CallSendAPI data].

Definition sendURL (recId url : string) : Trace :=
  [CallSendAPI
     {| recipient := recId;
        body := AttachmentBody
                  (ButtonTemplate "Wil je meer weten?"
                     [WebUrlButton url "Lees verder"]) |}].

Definition sendTypingOn (recipientId : string) : Trace :=
  [ConsoleLog "Turning typing indicator on"]
  ++ [CallSendAPI {| recipient := recipientId; body := SenderAction "typing_on" |}].

Definition sendTypingOff (recipientId : string) : Trace :=
  [ConsoleLog "Turning typing indicator off"]
  ++ [CallSendAPI {| recipient := recipientId; body := SenderAction "typing_off" |}].

Definition receivedAuthentication (event : MessagingEvent) (o : Optin) : Trace :=
  let senderID := sender_id event in
  [ConsoleLog "Received authentication for user %d and page %d with pass through param '%s' at %d"]
  ++ sendTextMessage senderID "Authentication successful".

(** The closure [handleSearchResponse(err, data)] of [receivedMessage]. *)
Definition handleSearchResponse (senderID : string)
    (err : option string) (data : option SearchResult) : Run :=
  let off := sendTypingOff senderID in
  match (if truthy err then err else None) with
  | Some err => Returns (off ++ sendTextMessage senderID err)
  | None =>
      match data with
      | None => Throws (off ++ [ConsoleLog "data"]) "TypeError"
      | Some data =>
          Returns
            (off ++ [ConsoleLog "data"]
             ++ (match data with
                 | SRButtons buttons => sendButtonMessage senderID buttons
                 | _ => []
                 end)
             ++ (match data with
                 | SRImages images =>
                     sendTextMessage senderID (caption images)
                     ++ sendImageMessage senderID (img_image images)
                     ++ [SetTimeout (MoreInfoLink senderID images) 3000]
                 | _ => []
                 end)
             ++ (match data with
                 | SRText text => sendTextMessage senderID text
                 | _ => []
                 end))
      end
  end.

Definition receivedMessage (event : MessagingEvent) (message : Message) : Trace :=
  let senderID := sender_id event in
  let logged :=
    [ConsoleLog "Received message for user %d and page %d at %d with message:";
     ConsoleLog "JSON.stringify(message)"] in
  if is_echo message then
    logged ++ [ConsoleLog "Received echo for message %s and app %d with metadata %s"]
  else
    match quick_reply message with
    | Some quickReply =>
        logged ++ [ConsoleLog "Quick reply for message %s with payload %s"]
        ++ sendTextMessage senderID "Quick reply tapped"
    | None =>
        let messageText := text message in
        if truthy messageText then
          let parsedMsg := toLowerCase (trim (interpolate messageText)) in
          logged
          ++ sendTextMessage senderID "Ik ben nu aan het zoeken, een momentje..."
          ++ sendTypingOn senderID
          ++ (if negb (indexOf parsedMsg "-" =? -1)%Z then
                let dates := split parsedMsg "-" in
                [Bot (PainterByDate (nth_error dates 1) (nth_error dates 0))
                     (HandleSearchResponse senderID)]
              else if parsedMsg =? "utrecht" then
                [Bot GetMonuments (HandleSearchResponse senderID)]
              else if parsedMsg =? "surprise" then
                [Bot RandomArtist (HandleSearchResponse senderID)]
              else
                [Bot (SearchPainters parsedMsg) (HandleSearchResponse senderID)])
        else
          logged ++ sendTextMessage senderID "Sorry, dit snap ik even niet."
    end.

Definition receivedDeliveryConfirmation (event : MessagingEvent) (delivery : Delivery)
  : Trace :=
  (match delivery_mids delivery with
   | Some messageIDs =>
       map (fun _ => ConsoleLog "Received delivery confirmation for message ID: %s")
           messageIDs
   | None => []
   end)
  ++ [ConsoleLog "All message before %d were delivered."].

(** The arrow function handed to [bot.paintingsByArtist]. *)
Definition postbackResponse (senderID : string)
    (err : option string) (data : option SearchResult) : Run :=
  match (if truthy err then err else None) with
  | Some err => Returns (sendTextMessage senderID ("Er ging iets mis: " ++ err))
  | None =>
      match data with
      | None => Throws [] "TypeError"
      | Some (SRImages images) =>
          Returns
            (sendTextMessage senderID (caption images)
             ++ sendImageMessage senderID (img_image images)
             ++ [ConsoleLog "data.images"]
             ++ (if truthy (img_collection images) then
                   [SetTimeout (CollectionFollowUp senderID images) 5000]
                 else []))
      | Some _ => Returns []
      end
  end.

Definition receivedPostback (event : MessagingEvent) (p : Postback) : Trace :=
  let senderID := sender_id event in
  let payload := payload p in
  [Bot (PaintingsByArtist payload) (PostbackResponse senderID)]
  ++ [ConsoleLog "Received postback for user %d and page %d with payload '%s' at %d"]
  ++ sendTextMessage senderID "Ik ben nu een schilderij aan het ophalen...".

Definition receivedMessageRead (event : MessagingEvent) (r : Read) : Trace :=
  [ConsoleLog "Received message read event for watermark %d and sequence number %d"].

Definition receivedAccountLink (event : MessagingEvent) (a : AccountLinking) : Trace :=
  [ConsoleLog "Received account link event with for user %d with status %s and auth code %s "].

(** The bodies of the three closures handed to [setTimeout].  [u1] and [u2]
    are the two draws of [Math.random()] made, in this order, by the social
    feedback text. *)
Definition runTask (task : Task) (u1 u2 : Draw) : Trace :=
  match task with
  | SocialFeedback recipientId =>
      sendTextMessage recipientId
        (ofNumber (random 8 50 u1) ++ " mensen zagen deze afbeelding ook, "
         ++ ofNumber (random 2 4 u2) ++ " mensen kijken op dit moment")
  | MoreInfoLink senderID images =>
      sendURL senderID (wikidata images)
  | CollectionFollowUp senderID images =>
      sendTextMessage senderID
        ("Dit kun je trouwens zien in de collectie van "
         ++ interpolate (img_collection images))
      ++ (let moreUrl :=
            if truthy (img_url images) then interpolate (img_url images)
            else wikidata images in
          sendURL senderID moreUrl)
      ++ sendButtonMessage senderID
           {| buttons_text := "Nog een werk van deze schilder?";
              buttons_data := [{| bs_title := "Ja, leuk!";
                                  bs_payload := img_author images |}] |}
  end.

Definition runCallback (k : Callback) : option string -> option SearchResult -> Run :=
  match k with
  | HandleSearchResponse senderID => handleSearchResponse senderID
  | PostbackResponse senderID => postbackResponse senderID
  end.

(** The handler an event is routed to, with the tag that selected it: the
    [if]/[else if] chain of the [forEach] body. *)
Inductive Routed :=
| ToAuthentication (o : Optin)
| ToMessage (m : Message)
| ToDeliveryConfirmation (d : Delivery)
| ToPostback (p : Postback)
| ToMessageRead (r : Read)
| ToAccountLink (a : AccountLinking)
| Unknown.

Definition route (messagingEvent : MessagingEvent) : Routed :=
  match optin messagingEvent with
  | Some o => ToAuthentication o
  | None =>
  match message messagingEvent with
  | Some m => ToMessage m
  | None =>
  match delivery messagingEvent with
  | Some d => ToDeliveryConfirmation d
  | None =>
  match postback messagingEvent with
  | Some p => ToPostback p
  | None =>
  match read messagingEvent with
  | Some r => ToMessageRead r
  | None =>
  match account_linking messagingEvent with
  | Some a => ToAccountLink a
  | None => Unknown
  end end end end end end.

Definition dispatch (messagingEvent : MessagingEvent) : Trace :=
  match route messagingEvent with
  | ToAuthentication o => receivedAuthentication messagingEvent o
  | ToMessage m => receivedMessage messagingEvent m
  | ToDeliveryConfirmation d => receivedDeliveryConfirmation messagingEvent d
  | ToPostback p => receivedPostback messagingEvent p
  | ToMessageRead r => receivedMessageRead messagingEvent r
  | ToAccountLink a => receivedAccountLink messagingEvent a
  | Unknown => [ConsoleLog "Webhook received unknown messagingEvent: "]
  end.

(** The handler of [POST /webhook]. *)
Definition webhook (data : WebhookEnvelope) : Trace :=
  if object data =? "page" then
    flat_map (fun pageEntry => flat_map dispatch (messaging pageEntry)) (entry data)
    ++ [SendStatus 200]
  else [].

(** The signature check.  [hmacSha1 key buf] stands for the bytes of
    [crypto.createHmac('sha1', key).update(buf).digest()]. *)
Section Signature.

Variable hmacSha1 : string -> list N -> list N.
Variable APP_SECRET : string.

Definition verifyRequestSignature (signature : option string) (buf : list N) : Run :=
  if negb (truthy signature) then
    Returns [ConsoleError "Couldn't validate the signature."]
  else
    let elements := split (interpolate signature) "=" in
    let method := nth_error elements 0 in
    let signatureHash := nth_error elements 1 in
    let expectedHash := hex (hmacSha1 APP_SECRET buf) in
    if looseNeq signatureHash expectedHash then
      Throws [] "Couldn't validate the request signature."
    else Returns [].

(** A request to [POST /webhook]: [bodyParser.json] runs the check on the
    raw body [buf] and only then hands the parsed body [data] to the
    route. *)
Definition postWebhook (signature : option string) (buf : list N)
    (data : WebhookEnvelope) : Run :=
  match verifyRequestSignature signature buf with
  | Returns logged => Returns (logged ++ webhook data)
  | Throws logged error => Throws logged error
  end.

End Signature.

End App.

(** ** The refactored server

    The same server after the send helpers, the delivery and read loggers
    and the signature check moved to [fb/fb-lib].  What is left in the file
    is the dispatcher, the two handlers and their callbacks, and the helper
    that schedules the social feedback text. *)

Module Refactored.

Definition sendDelayedRandomizedSocialFeedback (recipientId : string) : Trace :=
  [SetTimeout (SocialFeedback recipientId) 4000].

Definition handleSearchResponse (senderID : string)
    (err : option string) (data : option SearchResult) : Run :=
  let off := [Fb (FbSendTypingOff senderID)] in
  match (if truthy err then err else None) with
  | Some err => Returns (off ++ [Fb (FbSendTextMessage senderID err)])
  | None =>
      match data with
      | None => Throws (off ++ [ConsoleLog "data"]) "TypeError"
      | Some data =>
          Returns
            (off ++ [ConsoleLog "data"]
             ++ (match data with
                 | SRButtons buttons => [Fb (FbSendButtonMessage senderID buttons)]
                 | _ => []
                 end)
             ++ (match data with
                 | SRImages images =>
                     [Fb (FbSendTextMessage senderID (caption images));
                      Fb (FbSendImageMessage senderID (img_image images));
                      SetTimeout (MoreInfoLink senderID images) 3000]
                     ++ sendDelayedRandomizedSocialFeedback senderID
                 | _ => []
                 end)
             ++ (match data with
                 | SRText text => [Fb (FbSendTextMessage senderID text)]
                 | _ => []
                 end))
      end
  end.

Definition receivedMessage (event : MessagingEvent) (message : Message) : Trace :=
  let senderID := sender_id event in
  let logged :=
    [ConsoleLog "Received message for user %d and page %d at %d with message:";
     ConsoleLog "JSON.stringify(message)"] in
  if is_echo message then
    logged ++ [ConsoleLog "Received echo for message %s and app %d with metadata %s"]
  else
    match quick_reply message with
    | Some quickReply =>
        logged ++ [ConsoleLog "Quick reply for message %s with payload %s";
                   Fb (FbSendTextMessage senderID "Quick reply tapped")]
    | None =>
        let messageText := text message in
        if truthy messageText then
          let parsedMsg := toLowerCase (trim (interpolate messageText)) in
          logged
          ++ [Fb (FbSendTextMessage senderID "Ik ben nu aan het zoeken, een momentje...");
              Fb (FbSendTypingOn senderID)]
          ++ (if negb (indexOf parsedMsg "-" =? -1)%Z then
                let dates := split parsedMsg "-" in
                [Bot (PainterByDate (nth_error dates 1) (nth_error dates 0))
                     (HandleSearchResponse senderID)]
              else if parsedMsg =? "utrecht" then
                [Bot GetMonuments (HandleSearchResponse senderID)]
              else if parsedMsg =? "surprise" then
                [Bot RandomArtist (HandleSearchResponse senderID)]
              else
                [Bot (SearchPainters parsedMsg) (HandleSearchResponse senderID)])
        else
          logged ++ [Fb (FbSendTextMessage senderID "Sorry, dit snap ik even niet.")]
    end.

Definition postbackResponse (senderID : string)
    (err : option string) (data : option SearchResult) : Run :=
  match (if truthy err then err else None) with
  | Some err =>
      Returns [Fb (FbSendTextMessage senderID ("Er ging iets mis: " ++ err))]
  | None =>
      match data with
      | None => Throws [] "TypeError"
      | Some (SRImages images) =>
          Returns
            ([Fb (FbSendTextMessage senderID (caption images));
              Fb (FbSendImageMessage senderID (img_image images))]
             ++ sendDelayedRandomizedSocialFeedback senderID
             ++ [ConsoleLog "data.images"]
             ++ (if truthy (img_collection images) then
                   [SetTimeout (CollectionFollowUp senderID images) 5000]
                 else []))
      | Some _ => Returns []
      end
  end.

Definition receivedPostback (event : MessagingEvent) (p : Postback) : Trace :=
  let senderID := sender_id event in
  let payload := payload p in
  [Bot (PaintingsByArtist payload) (PostbackResponse senderID);
   ConsoleLog "Received postback for user %d and page %d with payload '%s' at %d";
   Fb (FbSendTextMessage senderID "Ik ben nu een schilderij aan het ophalen...")].

Definition runTask (task : Task) (u1 u2 : Draw) : Trace :=
  match task with
  | SocialFeedback recipientId =>
      [Fb (FbSendTextMessage recipientId
             (ofNumber (random 8 50 u1) ++ " mensen zagen deze afbeelding ook, "
              ++ ofNumber (random 2 4 u2) ++ " mensen kijken op dit moment"))]
  | MoreInfoLink senderID images =>
      [Fb (FbSendURL senderID (wikidata images))]
  | CollectionFollowUp senderID images =>
      let moreUrl :=
        if truthy (img_url images) then interpolate (img_url images)
        else wikidata images in
      [Fb (FbSendTextMessage senderID
             ("Dit kun je trouwens zien in de collectie van "
              ++ interpolate (img_collection images)));
       Fb (FbSendURL senderID moreUrl);
       Fb (FbSendButtonMessage senderID
             {| buttons_text := "Nog een werk van deze schilder?";
                buttons_data := [{| bs_title := "Ja, leuk!";
                                    bs_payload := img_author images |}] |})]
  end.

Definition runCallback (k : Callback) : option string -> option SearchResult -> Run :=
  match k with
  | HandleSearchResponse senderID => handleSearchResponse senderID
  | PostbackResponse senderID => postbackResponse senderID
  end.

Inductive Routed :=
| ToMessage (m : Message)
| ToDeliveryConfirmation (d : Delivery)
| ToPostback (p : Postback)
| ToMessageRead (r : Read)
| Unimplemented.

Definition route (messagingEvent : MessagingEvent) : Routed :=
  match message messagingEvent with
  | Some m => ToMessage m
  | None =>
  match delivery messagingEvent with
  | Some d => ToDeliveryConfirmation d
  | None =>
  match postback messagingEvent with
  | Some p => ToPostback p
  | None =>
  match read messagingEvent with
  | Some r => ToMessageRead r
  | None => Unimplemented
  end end end end.

Definition dispatch (messagingEvent : MessagingEvent) : Trace :=
  match route messagingEvent with
  | ToMessage m => receivedMessage messagingEvent m
  | ToDeliveryConfirmation d => [Fb (FbReceivedDeliveryConfirmation messagingEvent)]
  | ToPostback p => receivedPostback messagingEvent p
  | ToMessageRead r => [Fb (FbReceivedMessageRead messagingEvent)]
  | Unimplemented => [ConsoleLog "Webhook received unimplemented messagingEvent: "]
  end.

Definition webhook (data : WebhookEnvelope) : Trace :=
  if object data =? "page" then
    flat_map (fun pageEntry => flat_map dispatch (messaging pageEntry)) (entry data)
    ++ [SendStatus 200]
  else [].

End Refactored.

(** ** Tags and priority orders *)

Inductive Tag :=
| TagOptin | TagMessage | TagDelivery | TagPostback | TagRead | TagAccountLink.

Definition present {A : Type} (field : option A) : bool :=
  match field with
  | Some _ => true
  | None => false
  end.

Definition carries (e : MessagingEvent) (t : Tag) : bool :=
  match t with
  | TagOptin => present (optin e)
  | TagMessage => present (message e)
  | TagDelivery => present (delivery e)
  | TagPostback => present (postback e)
  | TagRead => present (read e)
  | TagAccountLink => present (account_linking e)
  end.

(** The first tag of [order] that the event carries. *)
Definition firstCarried (order : list Tag) (e : MessagingEvent) : option Tag :=
  find (carries e) order.

Definition appOrder : list Tag :=
  [TagOptin; TagMessage; TagDelivery; TagPostback; TagRead; TagAccountLink].

Definition refactoredOrder : list Tag :=
  [TagMessage; TagDelivery; TagPostback; TagRead].

(** The order as the specification words it: message, postback, delivery,
    read, optin, accountLink. *)
Definition specOrder : list Tag :=
  [TagMessage; TagPostback; TagDelivery; TagRead; TagOptin; TagAccountLink].

Definition appTag (r : App.Routed) : option Tag :=
  match r with
  | App.ToAuthentication _ => Some TagOptin
  | App.ToMessage _ => Some TagMessage
  | App.ToDeliveryConfirmation _ => Some TagDelivery
  | App.ToPostback _ => Some TagPostback
  | App.ToMessageRead _ => Some TagRead
  | App.ToAccountLink _ => Some TagAccountLink
  | App.Unknown => None
  end.

Definition refactoredTag (r : Refactored.Routed) : option Tag :=
  match r with
  | Refactored.ToMessage _ => Some TagMessage
  | Refactored.ToDeliveryConfirmation _ => Some TagDelivery
  | Refactored.ToPostback _ => Some TagPostback
  | Refactored.ToMessageRead _ => Some TagRead
  | Refactored.Unimplemented => None
  end.

(** ** Observations on traces *)

Definition effectsOf (r : Run) : Trace :=
  match r with
  | Returns t => t
  | Throws t _ => t
  end.

(** The bodies handed to [callSendAPI], in order. *)
Fixpoint sends (t : Trace) : list MessageData :=
  match t with
  | [] => []
  | CallSendAPI m :: t' => m :: sends t'
  | _ :: t' => sends t'
  end.

(** The bodies posted to the Send API, in order. *)
Fixpoint requestsOf (t : Trace) : list MessageData :=
  match t with
  | [] => []
  | Request m :: t' => m :: requestsOf t'
  | _ :: t' => requestsOf t'
  end.

(** The calls into the send helpers of [fb/fb-lib], in order. *)
Definition isFbSend (c : FbCall) : bool :=
  match c with
  | FbReceivedDeliveryConfirmation _ | FbReceivedMessageRead _ => false
  | _ => true
  end.

Fixpoint fbSends (t : Trace) : list FbCall :=
  match t with
  | [] => []
  | Fb c :: t' => if isFbSend c then c :: fbSends t' else fbSends t'
  | _ :: t' => fbSends t'
  end.

(** The calls on the search collaborator, with their callbacks. *)
Fixpoint searchesOf (t : Trace) : list (BotRequest * Callback) :=
  match t with
  | [] => []
  | Bot c k :: t' => (c, k) :: searchesOf t'
  | _ :: t' => searchesOf t'
  end.

(** The timers started, with their delays in milliseconds. *)
Fixpoint timersOf (t : Trace) : list (Task * Z) :=
  match t with
  | [] => []
  | SetTimeout task ms :: t' => (task, ms) :: timersOf t'
  | _ :: t' => timersOf t'
  end.

(** The status codes written to the HTTP response. *)
Fixpoint responsesOf (t : Trace) : list Z :=
  match t with
  | [] => []
  | SendStatus code :: t' => code :: responsesOf t'
  | _ :: t' => responsesOf t'
  end.

(** ** The event loop

    The state of the process between two turns of the loop: the mode it
    runs in, what the handlers, callbacks and timers have done so far,
    what the bodies of [callSendAPI] have done for their calls, and which
    Send API requests, which calls on the search collaborator and which
    timers are still outstanding.  Handling a request is one turn;
    afterwards a turn is the completion of one outstanding Send API
    request, the completion of one outstanding search or the firing of one
    outstanding timer, taken in any order. *)

Module Loop.

Record World := {
  MODE : option string;
  performed : Trace;
  called : Trace;
  posts : list MessageData;
  searches : list (BotRequest * Callback);
  timers : list (Task * Z)
}.

(** The test [process.env.MODE === 'mock']. *)
Definition mock (w : World) : bool := strictEq (MODE w) "mock".

Definition idle : World :=
  {| MODE := None; performed := []; called := []; posts := [];
     searches := []; timers := [] |}.

(** The effects [t] happen: each call of [callSendAPI] among them runs the
    body of the function, and the requests, searches and timers started
    become outstanding. *)
Definition perform (w : World) (t : Trace) : World :=
  let bodies := flat_map (App.callSendAPI (MODE w)) (sends t) in
  {| MODE := MODE w;
     performed := performed w ++ t;
     called := called w ++ bodies;
     posts := posts w ++ requestsOf bodies;
     searches := searches w ++ searchesOf t;
     timers := timers w ++ timersOf t |}.

Definition without {A : Type} (i : nat) (l : list A) : list A :=
  firstn i l ++ skipn (S i) l.

Definition request (w : World) (data : WebhookEnvelope) : World :=
  perform w (App.webhook data).

Definition sent (w : World) (i : nat) (error : option string)
    (response : option SendApiResponse) (body : option SendApiBody) : option World :=
  match nth_error (posts w) i with
  | Some messageData =>
      Some (perform {| MODE := MODE w;
                       performed := performed w;
                       called := called w;
                       posts := without i (posts w);
                       searches := searches w;
                       timers := timers w |}
                    (effectsOf (App.sendAPICallback messageData error response body)))
  | None => None
  end.

Definition complete (w : World) (i : nat)
    (err : option string) (data : option SearchResult) : option World :=
  match nth_error (searches w) i with
  | Some (_, k) =>
      Some (perform {| MODE := MODE w;
                       performed := performed w;
                       called := called w;
                       posts := posts w;
                       searches := without i (searches w);
                       timers := timers w |}
                    (effectsOf (App.runCallback k err data)))
  | None => None
  end.

Definition fire (w : World) (i : nat) (u1 u2 : Draw) : option World :=
  match nth_error (timers w) i with
  | Some (task, _) =>
      Some (perform {| MODE := MODE w;
                       performed := performed w;
                       called := called w;
                       posts := posts w;
                       searches := searches w;
                       timers := without i (timers w) |}
                    (App.runTask task u1 u2))
  | None => None
  end.

(** One later turn of the loop, and any number of them. *)
Inductive turn : World -> World -> Prop :=
| turn_sent w i error response body w' :
    sent w i error response body = Some w' -> turn w w'
| turn_complete w i err data w' :
    complete w i err data = Some w' -> turn w w'
| turn_fire w i u1 u2 w' :
    unitInterval u1 -> unitInterval u2 ->
    fire w i u1 u2 = Some w' -> turn w w'.

Inductive turns : World -> World -> Prop :=
| turns_none w : turns w w
| turns_more w1 w2 w3 : turn w1 w2 -> turns w2 w3 -> turns w1 w3.

End Loop.

(** The trace of the handler of tag [t] on event [e], when [e] carries
    [t]. *)
Definition appHandler (t : Tag) (e : MessagingEvent) : option Trace :=
  match t with
  | TagOptin => option_map (App.receivedAuthentication e) (optin e)
  | TagMessage => option_map (App.receivedMessage e) (message e)
  | TagDelivery => option_map (App.receivedDeliveryConfirmation e) (delivery e)
  | TagPostback => option_map (App.receivedPostback e) (postback e)
  | TagRead => option_map (App.receivedMessageRead e) (read e)
  | TagAccountLink => option_map (App.receivedAccountLink e) (account_linking e)
  end.

Definition refactoredHandler (t : Tag) (e : MessagingEvent) : option Trace :=
  match t with
  | TagMessage => option_map (Refactored.receivedMessage e) (message e)
  | TagDelivery =>
      option_map (fun _ => [Fb (FbReceivedDeliveryConfirmation e)]) (delivery e)
  | TagPostback => option_map (Refactored.receivedPostback e) (postback e)
  | TagRead => option_map (fun _ => [Fb (FbReceivedMessageRead e)]) (read e)
  | TagOptin | TagAccountLink => None
  end.

(** A dispatcher follows a priority order when every event is handled by
    the handler of the first tag of the order it carries, and by the
    fallback when it carries none. *)
Definition dispatchesInOrder (order : list Tag)
    (dispatch : MessagingEvent -> Trace)
    (handler : Tag -> MessagingEvent -> option Trace)
    (fallback : Trace) : Prop :=
  forall e,
    match firstCarried order e with
    | Some t => handler t e = Some (dispatch e)
    | None => dispatch e = fallback
    end.

(** The URLs of the image attachments handed to [callSendAPI]. *)
Fixpoint imageUrls (t : Trace) : list string :=
  match t with
  | [] => []
  | CallSendAPI {| body := AttachmentBody (ImageAttachment url) |} :: t' =>
      url :: imageUrls t'
  | _ :: t' => imageUrls t'
  end.

(** ** Further observations *)

(** [pieces.join(c)], the inverse of [split]. *)
Fixpoint join (c : ascii) (pieces : list string) : string :=
  match pieces with
  | [] => EmptyString
  | [p] => p
  | p :: rest => (p ++ String c (join c rest))%string
  end.

(** A draw of [Math.random()] whose product by [n] is [k] or just
    above: the multiple of [2 ^ -53] next above [k / n]. *)
Definition drawFor (k n : Z) : Draw :=
  {| mantissa := (k * 2 ^ 53 + n - 1) / n; exponent := -53 |}.

(** The messaging events of an envelope, across its entries. *)
Definition eventsOf (data : WebhookEnvelope) : list MessagingEvent :=
  flat_map messaging (entry data).

(** The user a callback or a timer closure will write to: the [senderID]
    or [recipientId] it captured. *)
Definition callbackTarget (k : Callback) : string :=
  match k with
  | HandleSearchResponse senderID => senderID
  | PostbackResponse senderID => senderID
  end.

Definition taskTarget (task : Task) : string :=
  match task with
  | SocialFeedback recipientId => recipientId
  | MoreInfoLink senderID _ => senderID
  | CollectionFollowUp senderID _ => senderID
  end.

(** An effect concerns only users of [P]: a message goes to one of them, a
    callback or a timer closure has captured one of them. *)
Definition effectFor (P : string -> Prop) (e : Effect) : Prop :=
  match e with
  | CallSendAPI messageData => P (recipient messageData)
  | Bot _ k => P (callbackTarget k)
  | SetTimeout task _ => P (taskTarget task)
  | _ => True
  end.

(** What the refactored server hands to the Send API when the send helpers
    of [fb/fb-lib] build their bodies as the helpers of the same names in
    [app.js] do. *)
Definition asSendAPI (call : FbCall) : list MessageData :=
  match call with
  | FbSendTextMessage recipientId messageText =>
      sends (App.sendTextMessage recipientId messageText)
  | FbSendTypingOn recipientId => sends (App.sendTypingOn recipientId)
  | FbSendTypingOff recipientId => sends (App.sendTypingOff recipientId)
  | FbSendImageMessage recipientId url => sends (App.sendImageMessage recipientId url)
  | FbSendButtonMessage recipientId buttons =>
      sends (App.sendButtonMessage recipientId buttons)
  | FbSendURL recId url => sends (App.sendURL recId url)
  | FbReceivedDeliveryConfirmation _ | FbReceivedMessageRead _ => []
  end.

Definition inlinedSends (t : Trace) : list MessageData :=
  flat_map asSendAPI (fbSends t).

Module Conversation.

Import Loop.

(** Every message sent so far went to a user of [P], and everything still
    outstanding will write to a user of [P]. *)
Definition serves (P : string -> Prop) (w : World) : Prop :=
  Forall (effectFor P) (performed w)
  /\ Forall (fun messageData => P (recipient messageData)) (posts w)
  /\ Forall (fun s => P (callbackTarget (snd s))) (searches w)
  /\ Forall (fun t => P (taskTarget (fst t))) (timers w).

(** A run of the server: requests whose events all come from users of [P],
    interleaved in any way with later turns. *)
Inductive run (P : string -> Prop) : World -> World -> Prop :=
| run_done w : run P w w
| run_request w data w' :
    Forall (fun event => P (sender_id event)) (eventsOf data) ->
    run P (request w data) w' -> run P w w'
| run_turn w w1 w' :
    turn w w1 -> run P w1 w' -> run P w w'.

(** The work still outstanding, weighted: a search may leave three
    requests and two timers behind, a timer three requests. *)
Definition outstanding (w : World) : nat :=
  12 * List.length (searches w) + 4 * List.length (timers w) + List.length (posts w).

(** [n] later turns in a row. *)
Inductive turnsN : nat -> World -> World -> Prop :=
| turnsN_none w : turnsN 0 w w
| turnsN_more n w1 w2 w3 : turn w1 w2 -> turnsN n w2 w3 -> turnsN (S n) w1 w3.

(** One turn after another, when the first one is possible. *)
Definition andThen (w : option World) (next : World -> option World) : option World :=
  match w with
  | Some w => next w
  | None => None
  end.

End Conversation.

(** ** Sample inputs *)

Module Sample.

Definition bare : MessagingEvent :=
  {| sender_id := "1001"; recipient_id := "2002"; timestamp := 1458692752478;
     optin := None; message := None; delivery := None; postback := None;
     read := None; account_linking := None |}.

Definition aDelivery : Delivery :=
  {| delivery_mids := Some ["mid.1"]; delivery_watermark := 1458668856253 |}.

Definition aPostback : Postback := {| payload := "Q5598" |}.

Definition anOptin : Optin := {| optin_ref := "PASS_THROUGH_PARAM" |}.

Definition textMessage (t : string) : Message :=
  {| is_echo := false; mid := "mid.2"; quick_reply := None; text := Some t |}.

Definition quickReplyMessage (t : string) : Message :=
  {| is_echo := false; mid := "mid.3";
     quick_reply := Some {| qr_payload := "PICKED" |}; text := Some t |}.

Definition echoMessage (t : string) : Message :=
  {| is_echo := true; mid := "mid.4"; quick_reply := None; text := Some t |}.

Definition datesMessage : Message := textMessage "1990-2000".
Definition datesQuickReply : Message := quickReplyMessage "1990-2000".
Definition utrechtMessage : Message := textMessage "  UtrechT ".
Definition utrechtQuickReply : Message := quickReplyMessage " Utrecht".

Definition withMessage (m : Message) : MessagingEvent :=
  {| sender_id := "1001"; recipient_id := "2002"; timestamp := 1458692752478;
     optin := None; message := Some m; delivery := None; postback := None;
     read := None; account_linking := None |}.

(** An event carrying both a delivery and a postback tag. *)
Definition deliveryAndPostback : MessagingEvent :=
  {| sender_id := "1001"; recipient_id := "2002"; timestamp := 1458692752478;
     optin := None; message := None; delivery := Some aDelivery;
     postback := Some aPostback; read := None; account_linking := None |}.

(** An event carrying both an optin and a message tag. *)
Definition optinAndMessage : MessagingEvent :=
  {| sender_id := "1001"; recipient_id := "2002"; timestamp := 1458692752478;
     optin := Some anOptin; message := Some (textMessage "rembrandt");
     delivery := None; postback := None; read := None; account_linking := None |}.

Definition nightWatch : ImageResult :=
  {| img_id := "Q219831"; img_image := "http://x/y.png";
     img_label := "De Nachtwacht"; img_description := "schilderij van Rembrandt";
     img_collection := Some "Rijksmuseum"; img_url := None;
     img_author := Some "Q5598" |}.

Definition plainImage : ImageResult :=
  {| img_id := "Q42"; img_image := "http://x/y.png";
     img_label := "L"; img_description := "D";
     img_collection := None; img_url := None; img_author := None |}.

Definition page (events : list MessagingEvent) : WebhookEnvelope :=
  {| object := "page"; entry := [{| messaging := events |}] |}.

Definition notAPage : WebhookEnvelope :=
  {| object := "user"; entry := [{| messaging := [withMessage (textMessage "utrecht")] |}] |}.

(** A stand-in for the keyed hash, for running the signature check. *)
Definition toyHmac (key : string) (buf : list N) : list N :=
  map (fun b => (b + N.of_nat (String.length key)) mod 256)%N buf.

End Sample.

Module Sample2.

Definition surpriseMessage : Message := Sample.textMessage " Surprise ".
Definition painterMessage : Message := Sample.textMessage "  Vermeer ".
Definition blankMessage : Message := Sample.textMessage "   ".
Definition periodMessage : Message := Sample.textMessage "1600-1650-1700".
Definition attachmentOnly : Message :=
  {| is_echo := false; mid := "mid.5"; quick_reply := None; text := None |}.

Definition postbackOnly : MessagingEvent :=
  {| sender_id := "1001"; recipient_id := "2002"; timestamp := 1458692752478;
     optin := None; message := None; delivery := None;
     postback := Some Sample.aPostback; read := None; account_linking := None |}.

Definition deliveryOnly : MessagingEvent :=
  {| sender_id := "1001"; recipient_id := "2002"; timestamp := 1458692752478;
     optin := None; message := None; delivery := Some Sample.aDelivery;
     postback := None; read := None; account_linking := None |}.

(** The same two events, batched in one entry and in two. *)
Definition oneEntry : WebhookEnvelope :=
  {| object := "page";
     entry := [{| messaging := [Sample.withMessage Sample.utrechtMessage; postbackOnly] |}] |}.

Definition twoEntries : WebhookEnvelope :=
  {| object := "page";
     entry := [{| messaging := [Sample.withMessage Sample.utrechtMessage] |};
               {| messaging := [] |};
               {| messaging := [postbackOnly] |}] |}.

(** The loop after a request with one text message, and after the search it
    started has failed. *)
Definition asked : Loop.World :=
  Loop.request Loop.idle (Sample.page [Sample.withMessage Sample.utrechtMessage]).

Definition answered : Loop.World :=
  match Loop.complete asked 0 (Some "Geen resultaten gevonden") None with
  | Some w => w
  | None => asked
  end.

(** The loop at rest in mock mode. *)
Definition mockIdle : Loop.World :=
  {| Loop.MODE := Some "mock"; Loop.performed := []; Loop.called := [];
     Loop.posts := []; Loop.searches := []; Loop.timers := [] |}.

(** Texts with units above 127: [Utrecht] between two no-break spaces,
    and a name that starts with a capital E with acute accent. *)
Definition noBreakSpace : ascii := ascii_of_nat 160.

Definition utrechtNoBreak : Message :=
  Sample.textMessage
    (String noBreakSpace ("Utrecht" ++ String noBreakSpace EmptyString)).

Definition datesNoBreak : Message :=
  Sample.textMessage ("1990-2000" ++ String noBreakSpace EmptyString).

Definition edouardMessage : Message :=
  Sample.textMessage (String (ascii_of_nat 201) "douard Manet").

(** Draws of [Math.random()]: zero, one half, the largest double below
    one, and a draw whose product by 43 rounds up to 8. *)
Definition drawZero : Draw := {| mantissa := 0; exponent := 0 |}.
Definition drawHalf : Draw := {| mantissa := 1; exponent := -1 |}.
Definition drawLast : Draw := {| mantissa := 2 ^ 53 - 1; exponent := -53 |}.
Definition drawRounded : Draw := {| mantissa := 1675758000882045; exponent := -53 |}.

End Sample2.

(** * Properties *)

(** ** Strings *)

Lemma indexOf_lower_bound (s : string) (c : ascii) : -1 <= indexOf s c.
Proof.
  induction s as [|a s IH]; simpl; [lia|].
  destruct (Ascii.eqb a c); [lia|].
  destruct (indexOf s c =? -1)%Z; lia.
Qed.

Lemma indexOf_cons (a : ascii) (s : string) (c : ascii) :
  indexOf (String a s) c = -1 <-> Ascii.eqb a c = false /\ indexOf s c = -1.
Proof.
  simpl. pose proof (indexOf_lower_bound s c) as Hlb.
  destruct (Ascii.eqb a c).
  - split; [lia | intros [H _]; discriminate].
  - destruct (indexOf s c =? -1)%Z eqn:E.
    + apply Z.eqb_eq in E. tauto.
    + apply Z.eqb_neq in E. split; [lia | tauto].
Qed.

Lemma split_nonempty (s : string) (c : ascii) : split s c <> [].
Proof.
  destruct s as [|a s]; simpl; [discriminate|].
  destruct (Ascii.eqb a c); [discriminate|].
  destruct (split s c); discriminate.
Qed.

(** Without an occurrence of the separator the string is its own single
    piece. *)
Lemma split_absent (s : string) (c : ascii) :
  indexOf s c = -1 -> split s c = [s].
Proof.
  induction s as [|a s IH]; intros H; [reflexivity|].
  apply indexOf_cons in H. destruct H as [Hac Hs].
  simpl. rewrite Hac, (IH Hs). reflexivity.
Qed.

(** The first piece ends at the first occurrence of the separator. *)
Lemma split_at_first (a b : string) (c : ascii) :
  indexOf a c = -1 -> split (a ++ String c b)%string c = a :: split b c.
Proof.
  induction a as [|x a IH]; intros H; simpl.
  - rewrite Ascii.eqb_refl. reflexivity.
  - apply indexOf_cons in H. destruct H as [Hxc Ha].
    rewrite Hxc, (IH Ha). reflexivity.
Qed.

(** With an occurrence of the separator there are at least two pieces. *)
Lemma split_present (s : string) (c : ascii) :
  indexOf s c <> -1 -> exists x y r, split s c = x :: y :: r.
Proof.
  induction s as [|a s IH]; intros H; [contradiction H; reflexivity|].
  simpl. destruct (Ascii.eqb a c) eqn:Hac.
  - pose proof (split_nonempty s c) as Hne.
    destruct (split s c) as [|y r]; [contradiction|].
    exists EmptyString, y, r. reflexivity.
  - assert (Hs : indexOf s c <> -1).
    { intros Hs. apply H. apply indexOf_cons. split; assumption. }
    destruct (IH Hs) as (x & y & r & E). rewrite E.
    exists (String a x), y, r. reflexivity.
Qed.

Lemma indexOf_present (a b : string) (c : ascii) :
  indexOf (a ++ String c b)%string c <> -1.
Proof.
  induction a as [|x a IH]; simpl.
  - rewrite Ascii.eqb_refl. discriminate.
  - destruct (Ascii.eqb x c); [discriminate|].
    destruct (indexOf (a ++ String c b) c =? -1)%Z eqn:E.
    + apply Z.eqb_eq in E. contradiction.
    + pose proof (indexOf_lower_bound (a ++ String c b) c). lia.
Qed.

Lemma hexDigit_not_equals (n : N) : (n < 16)%N -> Ascii.eqb (hexDigit n) "=" = false.
Proof.
  intros H.
  destruct n as [|p]; [reflexivity|].
  do 4 (destruct p as [p|p|]; try reflexivity); lia.
Qed.

(** A hexadecimal digest never contains the separator of the header. *)
Lemma hex_without_equals (bytes : list N) : indexOf (hex bytes) "=" = -1.
Proof.
  induction bytes as [|b bs IH]; [reflexivity|].
  cbn [hex]. apply indexOf_cons. split.
  - apply hexDigit_not_equals. apply N.mod_lt. discriminate.
  - apply indexOf_cons. split; [|exact IH].
    apply hexDigit_not_equals. apply N.mod_lt. discriminate.
Qed.

Lemma toLowerCase_empty (s : string) : toLowerCase s = EmptyString -> s = EmptyString.
Proof. destruct s; [reflexivity | discriminate]. Qed.

(** ** Random numbers *)

Lemma roundToDouble_bounds (m e n : Z) :
  0 <= m < 2 ^ 53 -> e <= 0 -> m < 2 ^ (- e) ->
  0 < n -> 2 ^ Z.log2 n < n ->
  let (q, e') := roundToDouble (m * n) e in
  0 <= q
  /\ ((0 <= e' /\ q * 2 ^ e' < n) \/ (e' < 0 /\ q < n * 2 ^ (- e'))).
Proof.
  intros Hm He Hlt Hn Hpow. unfold roundToDouble.
  assert (Hpe : 0 < 2 ^ (- e)) by (apply Z.pow_pos_nonneg; lia).
  assert (HM : 0 <= m * n) by nia.
  assert (HMlt : m * n + n <= n * 2 ^ (- e)) by nia.
  destruct (Z.leb_spec (Z.log2 (m * n) + 1 - 53) 0) as [Hdrop|Hdrop].
  - split; [exact HM|].
    destruct (Z.eq_dec e 0) as [->|He0].
    + left. split; [lia|]. cbn in Hlt. change (2 ^ 0) with 1. nia.
    + right. split; [lia | nia].
  - set (d := Z.log2 (m * n) + 1 - 53) in *.
    assert (Hpos : 0 < m * n).
    { destruct (Z.eq_dec (m * n) 0) as [E|]; [|lia].
      unfold d in Hdrop. rewrite E in Hdrop. cbn in Hdrop. lia. }
    assert (Hpd : 0 < 2 ^ d) by (apply Z.pow_pos_nonneg; lia).
    assert (Hhalf : 2 ^ d = 2 * 2 ^ (d - 1)).
    { replace d with (Z.succ (d - 1)) at 1 by lia. apply Z.pow_succ_r. lia. }
    assert (Hd : d - 1 <= Z.log2 n).
    { assert (Hlog : Z.log2 (m * n) < 53 + (Z.log2 n + 1)).
      { apply Z.log2_lt_pow2; [exact Hpos|].
        rewrite Z.pow_add_r by (pose proof (Z.log2_nonneg n); lia).
        pose proof (Z.log2_spec n Hn) as [_ Hn2].
        replace (Z.succ (Z.log2 n)) with (Z.log2 n + 1) in Hn2 by lia.
        nia. }
      unfold d. lia. }
    assert (Hhn : 2 ^ (d - 1) < n).
    { apply Z.le_lt_trans with (m := 2 ^ Z.log2 n); [|exact Hpow].
      apply Z.pow_le_mono_r; lia. }
    pose proof (Z.div_mod (m * n) (2 ^ d)) as Hdm.
    pose proof (Z.mod_pos_bound (m * n) (2 ^ d) Hpd) as Hr.
    set (q := m * n / 2 ^ d) in *. set (r := (m * n) mod 2 ^ d) in *.
    assert (Hq : 0 <= q) by (apply Z.div_pos; lia).
    set (q' := if ((2 ^ (d - 1) <? r)%Z || ((2 ^ (d - 1) =? r)%Z && Z.odd q))%bool
               then q + 1 else q).
    assert (Hq' : 0 <= q' /\ q' * 2 ^ d <= m * n + 2 ^ (d - 1)).
    { unfold q'.
      destruct ((2 ^ (d - 1) <? r)%Z || ((2 ^ (d - 1) =? r)%Z && Z.odd q))%bool eqn:Hup.
      - split; [lia|].
        assert (2 ^ (d - 1) <= r).
        { apply orb_true_iff in Hup. destruct Hup as [H|H].
          - apply Z.ltb_lt in H. lia.
          - apply andb_true_iff in H. destruct H as [H _]. apply Z.eqb_eq in H. lia. }
        nia.
      - split; [lia | nia]. }
    destruct Hq' as [Hq0 Hq1].
    assert (Hstar : q' * 2 ^ d < n * 2 ^ (- e)) by lia.
    split; [exact Hq0|].
    destruct (Z.le_gt_cases 0 (e + d)) as [Hed|Hed].
    + left. split; [exact Hed|].
      assert (E : 2 ^ d = 2 ^ (e + d) * 2 ^ (- e)).
      { rewrite <- Z.pow_add_r by lia. f_equal. lia. }
      assert (Hp : 0 < 2 ^ (e + d)) by (apply Z.pow_pos_nonneg; lia).
      rewrite E in Hstar. nia.
    + right. split; [exact Hed|].
      assert (E : 2 ^ (- e) = 2 ^ (- (e + d)) * 2 ^ d).
      { rewrite <- Z.pow_add_r by lia. f_equal. lia. }
      assert (Hp : 0 < 2 ^ (- (e + d))) by (apply Z.pow_pos_nonneg; lia).
      rewrite E in Hstar. nia.
Qed.

(** Every draw gives a number between the bounds, when the number of
    values is not a power of two. *)
Lemma random_range (lower upper : Z) (u : Draw) :
  lower <= upper ->
  2 ^ Z.log2 (upper - lower + 1) < upper - lower + 1 ->
  unitInterval u ->
  lower <= random lower upper u <= upper.
Proof.
  intros Hle Hpow (Hm & He & Hlt). unfold random.
  pose proof (roundToDouble_bounds (mantissa u) (exponent u) (upper - lower + 1)
                Hm (proj2 He) Hlt ltac:(lia) Hpow) as H.
  destruct (roundToDouble (mantissa u * (upper - lower + 1)) (exponent u)) as [q e'].
  destruct H as (Hq & [[He' Hb] | [He' Hb]]); unfold floorOf.
  - destruct (Z.leb_spec 0 e'); [|lia].
    assert (0 <= q * 2 ^ e').
    { apply Z.mul_nonneg_nonneg; [exact Hq | apply Z.pow_nonneg; lia]. }
    lia.
  - destruct (Z.leb_spec 0 e'); [lia|].
    assert (Hp : 0 < 2 ^ (- e')) by (apply Z.pow_pos_nonneg; lia).
    assert (0 <= q / 2 ^ (- e')) by (apply Z.div_pos; lia).
    assert (q / 2 ^ (- e') < upper - lower + 1).
    { apply Z.div_lt_upper_bound; [exact Hp | nia]. }
    lia.
Qed.

(** A number in a template literal is its decimal numeral. *)
Lemma ofNumber_parses (n : Z) :
  option_map Z.of_int (NilZero.int_of_string (ofNumber n)) = Some n.
Proof.
  unfold ofNumber. rewrite NilZero.isi.
  - cbn [option_map]. rewrite DecimalZ.of_to. reflexivity.
  - intros H. pose proof (f_equal Z.of_int H) as E. rewrite DecimalZ.of_to in E.
    cbn in E. subst n. discriminate H.
  - intros H. pose proof (f_equal Z.of_int H) as E. rewrite DecimalZ.of_to in E.
    cbn in E. subst n. discriminate H.
Qed.

Lemma drawFor_unitInterval (k n : Z) :
  0 <= k < n -> n < 2 ^ 53 -> unitInterval (drawFor k n).
Proof.
  intros Hk Hn. unfold unitInterval, drawFor. cbn [mantissa exponent].
  assert (Hp : 0 < 2 ^ 53) by reflexivity.
  assert (Hlt : (k * 2 ^ 53 + n - 1) / n < 2 ^ 53).
  { apply Z.div_lt_upper_bound; nia. }
  assert (0 <= (k * 2 ^ 53 + n - 1) / n) by (apply Z.div_pos; nia).
  repeat split; first [lia | exact Hlt].
Qed.

(** Every number between the bounds comes out of some draw. *)
Lemma random_reaches_8_50 (n : Z) :
  8 <= n <= 50 -> random 8 50 (drawFor (n - 8) 43) = n.
Proof.
  intros Hn.
  assert (H : forallb (fun k => random 8 50 (drawFor k 43) =? 8 + k)%Z
                      (map Z.of_nat (seq 0 43)) = true) by (vm_compute; reflexivity).
  rewrite forallb_forall in H. specialize (H (n - 8)).
  replace n with (8 + (n - 8)) at 2 by lia. apply Z.eqb_eq, H.
  apply in_map_iff. exists (Z.to_nat (n - 8)). split; [lia|].
  apply in_seq. lia.
Qed.

Lemma random_reaches_2_4 (m : Z) :
  2 <= m <= 4 -> random 2 4 (drawFor (m - 2) 3) = m.
Proof.
  intros Hm.
  assert (H : forallb (fun k => random 2 4 (drawFor k 3) =? 2 + k)%Z
                      (map Z.of_nat (seq 0 3)) = true) by (vm_compute; reflexivity).
  rewrite forallb_forall in H. specialize (H (m - 2)).
  replace m with (2 + (m - 2)) at 2 by lia. apply Z.eqb_eq, H.
  apply in_map_iff. exists (Z.to_nat (m - 2)). split; [lia|].
  apply in_seq. lia.
Qed.

(** ** The dispatcher *)

Lemma app_route_first_carried (e : MessagingEvent) :
  appTag (App.route e) = firstCarried appOrder e.
Proof.
  unfold App.route, firstCarried, appOrder. cbn [find carries].
  destruct (optin e), (message e), (delivery e), (postback e), (read e),
    (account_linking e); reflexivity.
Qed.

Lemma refactored_route_first_carried (e : MessagingEvent) :
  refactoredTag (Refactored.route e) = firstCarried refactoredOrder e.
Proof.
  unfold Refactored.route, firstCarried, refactoredOrder. cbn [find carries].
  destruct (message e), (delivery e), (postback e), (read e); reflexivity.
Qed.

(** C1, as amended.  The dispatcher of [app.js] checks the tags in the
    order optin, message, delivery, postback, read, account_linking, and
    the dispatcher of the refactored server checks message, delivery,
    postback, read only.  Each runs the handler of the first tag of its
    order that the event carries and no other; an event carrying none of
    them is only logged. *)
Theorem dispatch_follows_code_order :
  dispatchesInOrder appOrder App.dispatch appHandler
    [ConsoleLog "Webhook received unknown messagingEvent: "]
  /\ dispatchesInOrder refactoredOrder Refactored.dispatch refactoredHandler
       [ConsoleLog "Webhook received unimplemented messagingEvent: "].
Proof.
  split; intros e.
  - rewrite <- app_route_first_carried.
    unfold App.dispatch, App.route, appHandler.
    destruct (optin e), (message e), (delivery e), (postback e), (read e),
      (account_linking e); reflexivity.
  - rewrite <- refactored_route_first_carried.
    unfold Refactored.dispatch, Refactored.route, refactoredHandler.
    destruct (message e), (delivery e), (postback e), (read e); reflexivity.
Qed.

(** C1, as stated, fails.  On an event carrying a delivery and a postback
    tag the order of the specification selects the postback handler; both
    dispatchers run the delivery handler. *)
Lemma dispatch_not_in_spec_order :
  firstCarried specOrder Sample.deliveryAndPostback = Some TagPostback
  /\ App.dispatch Sample.deliveryAndPostback
     = App.receivedDeliveryConfirmation Sample.deliveryAndPostback Sample.aDelivery
  /\ Refactored.dispatch Sample.deliveryAndPostback
     = [Fb (FbReceivedDeliveryConfirmation Sample.deliveryAndPostback)]
  /\ ~ dispatchesInOrder specOrder App.dispatch appHandler
         [ConsoleLog "Webhook received unknown messagingEvent: "]
  /\ ~ dispatchesInOrder specOrder Refactored.dispatch refactoredHandler
         [ConsoleLog "Webhook received unimplemented messagingEvent: "].
Proof.
  repeat split; try reflexivity.
  - intros H. specialize (H Sample.deliveryAndPostback). discriminate H.
  - intros H. specialize (H Sample.deliveryAndPostback). discriminate H.
Qed.

(** On an event carrying an optin and a message tag, [app.js] runs the
    authentication handler, not the message handler. *)
Example optin_before_message :
  App.dispatch Sample.optinAndMessage
  = App.receivedAuthentication Sample.optinAndMessage Sample.anOptin.
Proof. reflexivity. Qed.

(** ** The message handler: echoes *)

(** C7.  The message handler, given a message with [is_echo] set, only
    writes log lines: nothing is handed to the Send API (or, in the
    refactored server, to a send helper of the library), the search
    collaborator is not called and no timer is started. *)
Theorem echo_is_only_logged (event : MessagingEvent) (message : Message) :
  is_echo message = true ->
  App.receivedMessage event message
  = [ConsoleLog "Received message for user %d and page %d at %d with message:";
     ConsoleLog "JSON.stringify(message)";
     ConsoleLog "Received echo for message %s and app %d with metadata %s"]
  /\ sends (App.receivedMessage event message) = []
  /\ searchesOf (App.receivedMessage event message) = []
  /\ timersOf (App.receivedMessage event message) = []
  /\ Refactored.receivedMessage event message = App.receivedMessage event message
  /\ fbSends (Refactored.receivedMessage event message) = [].
Proof.
  intros Hecho. unfold App.receivedMessage, Refactored.receivedMessage.
  rewrite Hecho. repeat split; reflexivity.
Qed.

Lemma echo_is_only_logged_witness :
  is_echo (Sample.echoMessage "hallo") = true
  /\ sends (App.receivedMessage (Sample.withMessage (Sample.echoMessage "hallo"))
              (Sample.echoMessage "hallo")) = [].
Proof.
  split; [reflexivity|].
  apply (echo_is_only_logged (Sample.withMessage (Sample.echoMessage "hallo"))
           (Sample.echoMessage "hallo")).
  reflexivity.
Defined.

(** The dispatcher hands an event with a message to the message handler:
    always in the refactored server, and in [app.js] when the event has no
    optin tag. *)
Lemma dispatch_message (event : MessagingEvent) (m : Message) :
  message event = Some m ->
  Refactored.dispatch event = Refactored.receivedMessage event m
  /\ (optin event = None -> App.dispatch event = App.receivedMessage event m).
Proof.
  intros Hm. split.
  - unfold Refactored.dispatch, Refactored.route. rewrite Hm. reflexivity.
  - intros Ho. unfold App.dispatch, App.route. rewrite Ho, Hm. reflexivity.
Qed.

(** ** The search callback of the message handler *)

Lemma truthy_some (v : option string) :
  truthy v = true -> exists c s, v = Some (String c s).
Proof.
  destruct v as [[|c s]|]; try discriminate. intros _. exists c, s. reflexivity.
Qed.

(** C8.  Whatever the completion, the callback of the message handler
    starts by turning the typing indicator off.  When the completion
    carries an error, the callback then sends the error as a text message
    and returns. *)
Theorem search_response_typing_off_then_error
    (senderID : string) (err : option string) (data : option SearchResult) :
  (exists rest,
      effectsOf (App.handleSearchResponse senderID err data)
      = ConsoleLog "Turning typing indicator off"
        :: CallSendAPI {| recipient := senderID; body := SenderAction "typing_off" |}
        :: rest)
  /\ (exists rest,
      effectsOf (Refactored.handleSearchResponse senderID err data)
      = Fb (FbSendTypingOff senderID) :: rest)
  /\ (truthy err = true ->
      App.handleSearchResponse senderID err data
      = Returns
          [ConsoleLog "Turning typing indicator off";
           CallSendAPI {| recipient := senderID; body := SenderAction "typing_off" |};
           CallSendAPI {| recipient := senderID;
                          body := TextBody (interpolate err)
                                    "DEVELOPER_DEFINED_METADATA" |}]
      /\ Refactored.handleSearchResponse senderID err data
         = Returns [Fb (FbSendTypingOff senderID);
                    Fb (FbSendTextMessage senderID (interpolate err))]).
Proof.
  unfold App.handleSearchResponse, Refactored.handleSearchResponse.
  repeat split.
  - destruct (if truthy err then err else None); [|destruct data];
      eexists; reflexivity.
  - destruct (if truthy err then err else None); [|destruct data];
      eexists; reflexivity.
  - apply truthy_some in H. destruct H as (c & s & ->). reflexivity.
  - apply truthy_some in H. destruct H as (c & s & ->). reflexivity.
Qed.

Lemma search_response_typing_off_then_error_witness :
  truthy (Some "Geen resultaten gevonden") = true
  /\ App.handleSearchResponse "1001" (Some "Geen resultaten gevonden") None
     = Returns
         [ConsoleLog "Turning typing indicator off";
          CallSendAPI {| recipient := "1001"; body := SenderAction "typing_off" |};
          CallSendAPI {| recipient := "1001";
                         body := TextBody "Geen resultaten gevonden"
                                   "DEVELOPER_DEFINED_METADATA" |}].
Proof.
  split; [reflexivity|].
  apply (search_response_typing_off_then_error
           "1001" (Some "Geen resultaten gevonden") None).
  reflexivity.
Defined.

(** ** Images *)

(** C10.  [sendImageMessage] posts the URL it is given followed by
    [?width=800], whatever the URL contains.  In the two callbacks of
    [app.js] the only image posted is the image of the result, with that
    suffix. *)
Theorem image_url_gets_width_suffix
    (recipientId url : string) (err : option string) (images : ImageResult) :
  sends (App.sendImageMessage recipientId url)
  = [{| recipient := recipientId;
        body := AttachmentBody (ImageAttachment (url ++ "?width=800")) |}]
  /\ imageUrls (effectsOf (App.handleSearchResponse recipientId err
                             (Some (SRImages images))))
     = (if truthy err then [] else [(img_image images ++ "?width=800")%string])
  /\ imageUrls (effectsOf (App.postbackResponse recipientId err
                             (Some (SRImages images))))
     = (if truthy err then [] else [(img_image images ++ "?width=800")%string]).
Proof.
  split; [reflexivity|].
  unfold App.handleSearchResponse, App.postbackResponse.
  destruct err as [[|c s]|]; cbn [truthy]; split; try reflexivity;
    cbn; destruct (truthy (img_collection images)); reflexivity.
Qed.

Example image_url_with_query :
  sends (App.sendImageMessage "1001" "http://x/y.png?a=1")
  = [{| recipient := "1001";
        body := AttachmentBody (ImageAttachment "http://x/y.png?a=1?width=800") |}].
Proof. reflexivity. Qed.

(** ** The message handler: classification of the text *)

(** The effects of the message handler before the search call, when the
    message is no echo, has no quick reply and has a text. *)
Lemma receivedMessage_text (event : MessagingEvent) (m : Message) (t : string) :
  is_echo m = false -> quick_reply m = None -> text m = Some t ->
  t <> EmptyString ->
  let parsedMsg := toLowerCase (trim t) in
  let k := HandleSearchResponse (sender_id event) in
  let request :=
    if negb (indexOf parsedMsg "-" =? -1)%Z then
      PainterByDate (nth_error (split parsedMsg "-") 1)
                    (nth_error (split parsedMsg "-") 0)
    else if (parsedMsg =? "utrecht")%string then GetMonuments
    else if (parsedMsg =? "surprise")%string then RandomArtist
    else SearchPainters parsedMsg in
  App.receivedMessage event m
  = [ConsoleLog "Received message for user %d and page %d at %d with message:";
     ConsoleLog "JSON.stringify(message)";
     CallSendAPI {| recipient := sender_id event;
                    body := TextBody "Ik ben nu aan het zoeken, een momentje..."
                              "DEVELOPER_DEFINED_METADATA" |};
     ConsoleLog "Turning typing indicator on";
     CallSendAPI {| recipient := sender_id event; body := SenderAction "typing_on" |};
     Bot request k]
  /\ Refactored.receivedMessage event m
     = [ConsoleLog "Received message for user %d and page %d at %d with message:";
        ConsoleLog "JSON.stringify(message)";
        Fb (FbSendTextMessage (sender_id event)
              "Ik ben nu aan het zoeken, een momentje...");
        Fb (FbSendTypingOn (sender_id event));
        Bot request k].
Proof.
  intros Hecho Hqr Htext Hne parsedMsg k request.
  unfold App.receivedMessage, Refactored.receivedMessage.
  rewrite Hecho, Hqr, Htext.
  destruct t as [|c t']; [contradiction|].
  cbn [truthy interpolate]. fold parsedMsg. unfold request.
  destruct (negb (indexOf parsedMsg "-" =? -1)%Z);
    [|destruct (parsedMsg =? "utrecht")%string;
      [|destruct (parsedMsg =? "surprise")%string]];
    split; reflexivity.
Qed.

(** C5.  The rule applies to the messages that reach the text rules of
    the handler, those that are no echo and have no quick reply.  For such
    a message whose text, trimmed and lower-cased, contains a hyphen, the
    text is split at the hyphen and the one call on the search
    collaborator is [painterByDate] with the two pieces swapped: the
    second piece, then the first.  For [a-b] the call is
    [painterByDate(b, a)]; for [1990-2000] it is
    [painterByDate("2000", "1990")]. *)
Theorem hyphen_calls_painterByDate_swapped
    (event : MessagingEvent) (m : Message) (t : string) :
  is_echo m = false -> quick_reply m = None -> text m = Some t ->
  indexOf (toLowerCase (trim t)) "-" <> -1 ->
  (exists first second rest,
      split (toLowerCase (trim t)) "-" = first :: second :: rest
      /\ searchesOf (App.receivedMessage event m)
         = [(PainterByDate (Some second) (Some first),
             HandleSearchResponse (sender_id event))]
      /\ searchesOf (Refactored.receivedMessage event m)
         = [(PainterByDate (Some second) (Some first),
             HandleSearchResponse (sender_id event))])
  /\ (forall a b,
      toLowerCase (trim t) = (a ++ String "-" b)%string ->
      indexOf a "-" = -1 -> indexOf b "-" = -1 ->
      searchesOf (App.receivedMessage event m)
      = [(PainterByDate (Some b) (Some a), HandleSearchResponse (sender_id event))]
      /\ searchesOf (Refactored.receivedMessage event m)
         = [(PainterByDate (Some b) (Some a), HandleSearchResponse (sender_id event))]).
Proof.
  intros Hecho Hqr Htext Hhyphen.
  assert (Hne : t <> EmptyString).
  { intros ->. apply Hhyphen. reflexivity. }
  destruct (receivedMessage_text event m t Hecho Hqr Htext Hne) as [Happ Href].
  apply Z.eqb_neq in Hhyphen.
  rewrite Hhyphen in Happ, Href. cbn [negb] in Happ, Href.
  rewrite Happ, Href. clear Happ Href.
  apply Z.eqb_neq in Hhyphen. split.
  - destruct (split_present _ _ Hhyphen) as (x & y & r & E).
    exists x, y, r. rewrite E. repeat split; reflexivity.
  - intros a b Hab Ha Hb.
    rewrite Hab, (split_at_first a b "-" Ha), (split_absent b "-" Hb).
    split; reflexivity.
Qed.

Lemma hyphen_calls_painterByDate_swapped_witness :
  is_echo Sample.datesMessage = false
  /\ quick_reply Sample.datesMessage = None
  /\ text Sample.datesMessage = Some "1990-2000"
  /\ indexOf (toLowerCase (trim "1990-2000")) "-" <> -1
  /\ searchesOf (App.receivedMessage (Sample.withMessage Sample.datesMessage)
                   Sample.datesMessage)
     = [(PainterByDate (Some "2000") (Some "1990"), HandleSearchResponse "1001")].
Proof.
  split; [reflexivity|]. split; [reflexivity|]. split; [reflexivity|].
  split; [discriminate|].
  refine (proj1 (proj2 (hyphen_calls_painterByDate_swapped
                          (Sample.withMessage Sample.datesMessage)
                          Sample.datesMessage "1990-2000"
                          eq_refl eq_refl eq_refl _)
                       "1990" "2000" eq_refl eq_refl eq_refl)).
  discriminate.
Defined.

(** A message with a quick reply is answered with a fixed text whatever
    its text: with the text [1990-2000] the search collaborator is not
    called. *)
Example hyphen_with_quick_reply_no_search :
  toLowerCase (trim "1990-2000") = "1990-2000"
  /\ indexOf "1990-2000" "-" = 4
  /\ text Sample.datesQuickReply = Some "1990-2000"
  /\ searchesOf (App.receivedMessage (Sample.withMessage Sample.datesQuickReply)
                   Sample.datesQuickReply) = []
  /\ searchesOf (App.dispatch (Sample.withMessage Sample.datesQuickReply)) = []
  /\ searchesOf (Refactored.dispatch (Sample.withMessage Sample.datesQuickReply)) = []
  /\ sends (App.dispatch (Sample.withMessage Sample.datesQuickReply))
     = [{| recipient := "1001";
           body := TextBody "Quick reply tapped" "DEVELOPER_DEFINED_METADATA" |}].
Proof. repeat split; reflexivity. Qed.

(** C9.  The rule applies to the messages that reach the text rules of
    the handler, those that are no echo and have no quick reply.  For such
    a message whose text, with leading and trailing white space trimmed
    and in lower case, is [utrecht], whatever the case of its letters: the
    one call on the search collaborator is [getMonuments]. *)
Theorem utrecht_calls_getMonuments
    (event : MessagingEvent) (m : Message) (t : string) :
  is_echo m = false -> quick_reply m = None -> text m = Some t ->
  toLowerCase (trim t) = "utrecht" ->
  searchesOf (App.receivedMessage event m)
  = [(GetMonuments, HandleSearchResponse (sender_id event))]
  /\ searchesOf (Refactored.receivedMessage event m)
     = [(GetMonuments, HandleSearchResponse (sender_id event))].
Proof.
  intros Hecho Hqr Htext Hnorm.
  assert (Hne : t <> EmptyString).
  { intros ->. discriminate Hnorm. }
  destruct (receivedMessage_text event m t Hecho Hqr Htext Hne) as [Happ Href].
  rewrite Hnorm in Happ, Href. rewrite Happ, Href. split; reflexivity.
Qed.

Lemma utrecht_calls_getMonuments_witness :
  is_echo Sample.utrechtMessage = false
  /\ quick_reply Sample.utrechtMessage = None
  /\ text Sample.utrechtMessage = Some "  UtrechT "
  /\ toLowerCase (trim "  UtrechT ") = "utrecht"
  /\ searchesOf (App.receivedMessage (Sample.withMessage Sample.utrechtMessage)
                   Sample.utrechtMessage)
     = [(GetMonuments, HandleSearchResponse "1001")].
Proof.
  split; [reflexivity|]. split; [reflexivity|]. split; [reflexivity|].
  split; [reflexivity|].
  apply (utrecht_calls_getMonuments (Sample.withMessage Sample.utrechtMessage)
           Sample.utrechtMessage "  UtrechT ");
    reflexivity.
Defined.

(** Likewise a message with a quick reply whose text is [Utrecht] does
    not reach the search collaborator. *)
Example utrecht_with_quick_reply_no_search :
  toLowerCase (trim " Utrecht") = "utrecht"
  /\ text Sample.utrechtQuickReply = Some " Utrecht"
  /\ searchesOf (App.receivedMessage (Sample.withMessage Sample.utrechtQuickReply)
                   Sample.utrechtQuickReply) = []
  /\ searchesOf (App.dispatch (Sample.withMessage Sample.utrechtQuickReply)) = []
  /\ searchesOf (Refactored.dispatch (Sample.withMessage Sample.utrechtQuickReply)) = []
  /\ sends (App.dispatch (Sample.withMessage Sample.utrechtQuickReply))
     = [{| recipient := "1001";
           body := TextBody "Quick reply tapped" "DEVELOPER_DEFINED_METADATA" |}].
Proof. repeat split; reflexivity. Qed.

(** A no-break space is white space, and a capital of the Latin-1
    Supplement has a lower-case form. *)
Example utrecht_between_no_break_spaces :
  searchesOf (App.receivedMessage (Sample.withMessage Sample2.utrechtNoBreak)
                Sample2.utrechtNoBreak)
  = [(GetMonuments, HandleSearchResponse "1001")].
Proof. reflexivity. Qed.

Example dates_before_no_break_space :
  searchesOf (App.receivedMessage (Sample.withMessage Sample2.datesNoBreak)
                Sample2.datesNoBreak)
  = [(PainterByDate (Some "2000") (Some "1990"), HandleSearchResponse "1001")].
Proof. reflexivity. Qed.

Example latin1_capital_is_lowered :
  searchesOf (App.receivedMessage (Sample.withMessage Sample2.edouardMessage)
                Sample2.edouardMessage)
  = [(SearchPainters (String (ascii_of_nat 233) "douard manet"),
      HandleSearchResponse "1001")].
Proof. reflexivity. Qed.

(** ** The signature check *)

Lemma split_header (method digest : string) :
  indexOf method "=" = -1 ->
  nth_error (split (method ++ String "=" digest)%string "=") 1
  = nth_error (split digest "=") 0.
Proof.
  intros H. rewrite (split_at_first method digest "=" H). reflexivity.
Qed.

(** C3, as amended.  With the header [sha1=] followed by the hexadecimal
    HMAC of the raw body under the app secret, the check returns.  With
    any other digest after [sha1=] that contains no [=], the check throws;
    in general it throws whenever the piece of the header between its
    first and its second [=] is not the expected digest.  Without the
    header the check logs one error line and returns, and the request goes
    on to the route. *)
Theorem signature_check
    (hmacSha1 : string -> list N -> list N) (APP_SECRET : string) (buf : list N) :
  let expectedHash := hex (hmacSha1 APP_SECRET buf) in
  App.verifyRequestSignature hmacSha1 APP_SECRET
    (Some ("sha1=" ++ expectedHash)%string) buf = Returns []
  /\ (forall digest,
      indexOf digest "=" = -1 -> digest <> expectedHash ->
      App.verifyRequestSignature hmacSha1 APP_SECRET
        (Some ("sha1=" ++ digest)%string) buf
      = Throws [] "Couldn't validate the request signature.")
  /\ (forall signature,
      truthy (Some signature) = true ->
      nth_error (split signature "=") 1 <> Some expectedHash ->
      App.verifyRequestSignature hmacSha1 APP_SECRET (Some signature) buf
      = Throws [] "Couldn't validate the request signature.")
  /\ App.verifyRequestSignature hmacSha1 APP_SECRET None buf
     = Returns [ConsoleError "Couldn't validate the signature."]
  /\ (forall data,
      App.postWebhook hmacSha1 APP_SECRET None buf data
      = Returns (ConsoleError "Couldn't validate the signature." :: App.webhook data)).
Proof.
  intros expectedHash.
  assert (Hother : forall signature,
             truthy (Some signature) = true ->
             nth_error (split signature "=") 1 <> Some expectedHash ->
             App.verifyRequestSignature hmacSha1 APP_SECRET (Some signature) buf
             = Throws [] "Couldn't validate the request signature.").
  { intros signature Htruthy Hneq. unfold App.verifyRequestSignature.
    rewrite Htruthy. cbn [negb interpolate]. fold expectedHash.
    destruct (nth_error (split signature "=") 1) as [h|]; [|reflexivity].
    cbn [looseNeq]. destruct (String.eqb_spec h expectedHash) as [->|_].
    - contradiction Hneq. reflexivity.
    - reflexivity. }
  split; [|split; [|split; [|split]]].
  - unfold App.verifyRequestSignature. cbn [truthy append negb interpolate].
    fold expectedHash.
    change (String "s" (String "h" (String "a" (String "1" (String "=" expectedHash)))))
      with ("sha1" ++ String "=" expectedHash)%string.
    rewrite split_header by reflexivity.
    rewrite (split_absent expectedHash "=" (hex_without_equals _)).
    cbn [nth_error looseNeq]. rewrite String.eqb_refl. reflexivity.
  - intros digest Hsep Hneq. apply Hother; [reflexivity|].
    change ("sha1=" ++ digest)%string with ("sha1" ++ String "=" digest)%string.
    rewrite split_header by reflexivity.
    rewrite (split_absent digest "=" Hsep). cbn [nth_error].
    intros E. apply Hneq. injection E as E. exact E.
  - exact Hother.
  - reflexivity.
  - reflexivity.
Qed.

Lemma signature_check_witness :
  indexOf "0badc0de" "=" = -1
  /\ "0badc0de" <> hex (Sample.toyHmac "s3cret" [104; 105]%N)
  /\ App.verifyRequestSignature Sample.toyHmac "s3cret"
       (Some "sha1=0badc0de") [104; 105]%N
     = Throws [] "Couldn't validate the request signature."
  /\ truthy (Some "sha1") = true
  /\ nth_error (split "sha1" "=") 1 <> Some (hex (Sample.toyHmac "s3cret" [104; 105]%N))
  /\ App.verifyRequestSignature Sample.toyHmac "s3cret" (Some "sha1") [104; 105]%N
     = Throws [] "Couldn't validate the request signature."
  /\ App.verifyRequestSignature Sample.toyHmac "s3cret" (Some "sha1=6e6f") [104; 105]%N
     = Returns [].
Proof.
  split; [reflexivity|]. split; [discriminate|].
  split.
  { apply (proj1 (proj2 (signature_check Sample.toyHmac "s3cret" [104; 105]%N))
             "0badc0de"); [reflexivity | discriminate]. }
  split; [reflexivity|]. split; [discriminate|].
  split.
  { apply (proj1 (proj2 (proj2 (signature_check Sample.toyHmac "s3cret" [104; 105]%N)))
             "sha1"); [reflexivity | discriminate]. }
  exact (proj1 (signature_check Sample.toyHmac "s3cret" [104; 105]%N)).
Defined.

Example signature_check_passes :
  hex (Sample.toyHmac "s3cret" [104; 105]%N) = "6e6f"
  /\ App.verifyRequestSignature Sample.toyHmac "s3cret" (Some "sha1=6e6f") [104; 105]%N
     = Returns [].
Proof. split; reflexivity. Qed.

Lemma append_longer (s t : string) (c : ascii) : (s ++ String c t)%string <> s.
Proof.
  induction s as [|a s IH]; [discriminate|].
  cbn [append]. intros H. injection H as H. exact (IH H).
Qed.

(** C3, as stated, fails.  The digest value [6e6f=0badc0de] is not the
    expected digest [6e6f], and the header [sha1=6e6f=0badc0de] passes:
    the check compares only the piece before the second [=].  The same
    holds for every key, body and tail. *)
Lemma signature_digest_with_tail_accepted :
  hex (Sample.toyHmac "s3cret" [104; 105]%N) = "6e6f"
  /\ "6e6f=0badc0de" <> hex (Sample.toyHmac "s3cret" [104; 105]%N)
  /\ App.verifyRequestSignature Sample.toyHmac "s3cret"
       (Some "sha1=6e6f=0badc0de") [104; 105]%N
     = Returns []
  /\ (forall (hmacSha1 : string -> list N -> list N) (APP_SECRET : string)
             (buf : list N) (tail : string),
      (hex (hmacSha1 APP_SECRET buf) ++ String "=" tail)%string
      <> hex (hmacSha1 APP_SECRET buf)
      /\ App.verifyRequestSignature hmacSha1 APP_SECRET
           (Some ("sha1=" ++ (hex (hmacSha1 APP_SECRET buf) ++ String "=" tail))%string)
           buf
         = Returns []).
Proof.
  split; [reflexivity|]. split; [discriminate|]. split; [reflexivity|].
  intros hmacSha1 APP_SECRET buf tail. split; [apply append_longer|].
  unfold App.verifyRequestSignature. cbn [truthy append negb interpolate].
  set (expectedHash := hex (hmacSha1 APP_SECRET buf)).
  change (String "s" (String "h" (String "a" (String "1"
            (String "=" (expectedHash ++ String "=" tail))))))%string
    with ("sha1" ++ String "=" (expectedHash ++ String "=" tail))%string.
  rewrite split_header by reflexivity.
  rewrite (split_at_first expectedHash tail "=" (hex_without_equals _)).
  cbn [nth_error looseNeq]. rewrite String.eqb_refl. reflexivity.
Qed.

(** ** Timers *)

Lemma nth_error_after {A : Type} (l : list A) (a : A) (r : list A) :
  nth_error (l ++ a :: r) (List.length l) = Some a.
Proof.
  induction l as [|x l IH]; [reflexivity | exact IH].
Qed.

Lemma without_after {A : Type} (l : list A) (a : A) (r : list A) :
  Loop.without (List.length l) (l ++ a :: r) = l ++ r.
Proof.
  unfold Loop.without. induction l as [|x l IH]; [reflexivity|].
  cbn [List.length app firstn skipn]. cbn [skipn] in IH. rewrite IH. reflexivity.
Qed.

(** Firing a pending timer runs its task and leaves every other pending
    timer, every pending search and every pending request as it was. *)
Lemma fire_one (w : Loop.World) (before : list (Task * Z)) (task : Task) (ms : Z)
    (after : list (Task * Z)) (u1 u2 : Draw) :
  Loop.timers w = before ++ (task, ms) :: after ->
  exists w',
    Loop.fire w (List.length before) u1 u2 = Some w'
    /\ Loop.performed w' = Loop.performed w ++ App.runTask task u1 u2
    /\ Loop.searches w' = Loop.searches w
    /\ Loop.timers w' = before ++ after.
Proof.
  intros Ht. unfold Loop.fire. rewrite Ht, nth_error_after, without_after.
  eexists. split; [reflexivity|].
  cbn [Loop.perform Loop.performed Loop.searches Loop.timers].
  assert (Hs : searchesOf (App.runTask task u1 u2) = []) by (destruct task; reflexivity).
  assert (Hn : timersOf (App.runTask task u1 u2) = []) by (destruct task; reflexivity).
  rewrite Hs, Hn, !app_nil_r. repeat split.
Qed.

Lemma task_starts_nothing (task : Task) (u1 u2 : Draw) :
  searchesOf (App.runTask task u1 u2) = []
  /\ timersOf (App.runTask task u1 u2) = []
  /\ responsesOf (App.runTask task u1 u2) = [].
Proof. destruct task; repeat split; reflexivity. Qed.

(** ** The search callback of the message handler: images *)

(** C2.  On a result of type images, the callback of the message handler
    turns the typing indicator off, sends the caption, sends the image and
    starts two timers: the social feedback text after 4000 ms and the link
    to the Wikidata page of the result after 3000 ms.  The collection of
    the result plays no part.  The social feedback text holds the decimal
    numerals of two numbers, the first computed from the first draw of
    [Math.random()] and lying between 8 and 50, the second computed from
    the second draw and lying between 2 and 4; every number of the two
    ranges comes out of some draw.  Either timer fires whether or not the
    other has fired, and firing one leaves the other pending. *)
Theorem images_result_on_message_path
    (senderID : string) (err : option string) (images : ImageResult) :
  truthy err = false ->
  let social := SocialFeedback senderID in
  let link := MoreInfoLink senderID images in
  let reply :=
    [ConsoleLog "Turning typing indicator off";
     CallSendAPI {| recipient := senderID; body := SenderAction "typing_off" |};
     ConsoleLog "data";
     CallSendAPI {| recipient := senderID;
                    body := TextBody ("Je gaat zo zien: " ++ img_label images
                                      ++ ", " ++ img_description images)
                              "DEVELOPER_DEFINED_METADATA" |};
     CallSendAPI {| recipient := senderID;
                    body := AttachmentBody
                              (ImageAttachment (img_image images ++ "?width=800")) |};
     SetTimeout social 4000;
     SetTimeout link 3000] in
  App.handleSearchResponse senderID err (Some (SRImages images)) = Returns reply
  /\ (forall u1 u2,
      unitInterval u1 -> unitInterval u2 ->
      exists n m,
        8 <= n <= 50 /\ 2 <= m <= 4
        /\ n = random 8 50 u1 /\ m = random 2 4 u2
        /\ option_map Z.of_int (NilZero.int_of_string (ofNumber n)) = Some n
        /\ option_map Z.of_int (NilZero.int_of_string (ofNumber m)) = Some m
        /\ App.runTask social u1 u2
           = [CallSendAPI
                {| recipient := senderID;
                   body := TextBody (ofNumber n ++ " mensen zagen deze afbeelding ook, "
                                     ++ ofNumber m ++ " mensen kijken op dit moment")
                             "DEVELOPER_DEFINED_METADATA" |}])
  /\ (forall n, 8 <= n <= 50 -> exists u, unitInterval u /\ random 8 50 u = n)
  /\ (forall m, 2 <= m <= 4 -> exists u, unitInterval u /\ random 2 4 u = m)
  /\ (forall u1 u2,
      App.runTask link u1 u2
      = [CallSendAPI
           {| recipient := senderID;
              body := AttachmentBody
                        (ButtonTemplate "Wil je meer weten?"
                           [WebUrlButton ("http://www.wikidata.org/wiki/" ++ img_id images)
                                         "Lees verder"]) |}])
  /\ (forall w u1 u2,
      let started := Loop.perform w reply in
      Loop.timers started = Loop.timers w ++ [(social, 4000); (link, 3000)]
      /\ (exists w1,
          Loop.fire started (List.length (Loop.timers w)) u1 u2 = Some w1
          /\ Loop.timers w1 = Loop.timers w ++ [(link, 3000)]
          /\ Loop.performed w1 = Loop.performed started ++ App.runTask social u1 u2)
      /\ (exists w2,
          Loop.fire started (S (List.length (Loop.timers w))) u1 u2 = Some w2
          /\ Loop.timers w2 = Loop.timers w ++ [(social, 4000)]
          /\ Loop.performed w2 = Loop.performed started ++ App.runTask link u1 u2)).
Proof.
  intros Herr social link reply.
  split; [|split; [|split; [|split; [|split]]]].
  - unfold App.handleSearchResponse. rewrite Herr. reflexivity.
  - intros u1 u2 Hu1 Hu2. exists (random 8 50 u1), (random 2 4 u2).
    split; [apply random_range; [lia | reflexivity | exact Hu1]|].
    split; [apply random_range; [lia | reflexivity | exact Hu2]|].
    split; [reflexivity|]. split; [reflexivity|].
    split; [apply ofNumber_parses|]. split; [apply ofNumber_parses|].
    reflexivity.
  - intros n Hn. exists (drawFor (n - 8) 43). split.
    + apply drawFor_unitInterval; [lia | reflexivity].
    + apply random_reaches_8_50. exact Hn.
  - intros m Hm. exists (drawFor (m - 2) 3). split.
    + apply drawFor_unitInterval; [lia | reflexivity].
    + apply random_reaches_2_4. exact Hm.
  - reflexivity.
  - intros w u1 u2 started.
    assert (Ht : Loop.timers started = Loop.timers w ++ [(social, 4000); (link, 3000)])
      by reflexivity.
    split; [exact Ht|]. split.
    + destruct (fire_one started _ social 4000 [(link, 3000)] u1 u2 Ht)
        as (w1 & Hfire & Hperformed & _ & Htimers).
      exists w1. repeat split; assumption.
    + assert (Ht' : Loop.timers started
                    = (Loop.timers w ++ [(social, 4000)]) ++ (link, 3000) :: []).
      { rewrite Ht, <- app_assoc. reflexivity. }
      assert (Hlen : S (List.length (Loop.timers w))
                     = List.length (Loop.timers w ++ [(social, 4000)])).
      { rewrite length_app. cbn [List.length]. lia. }
      destruct (fire_one started _ link 3000 [] u1 u2 Ht')
        as (w2 & Hfire & Hperformed & _ & Htimers).
      exists w2. rewrite Hlen, Htimers, app_nil_r. repeat split; assumption.
Qed.

Lemma images_result_on_message_path_witness :
  truthy None = false
  /\ App.handleSearchResponse "1001" None (Some (SRImages Sample.plainImage))
     = Returns
         [ConsoleLog "Turning typing indicator off";
          CallSendAPI {| recipient := "1001"; body := SenderAction "typing_off" |};
          ConsoleLog "data";
          CallSendAPI {| recipient := "1001";
                         body := TextBody "Je gaat zo zien: L, D"
                                   "DEVELOPER_DEFINED_METADATA" |};
          CallSendAPI {| recipient := "1001";
                         body := AttachmentBody
                                   (ImageAttachment "http://x/y.png?width=800") |};
          SetTimeout (SocialFeedback "1001") 4000;
          SetTimeout (MoreInfoLink "1001" Sample.plainImage) 3000]
  /\ unitInterval Sample2.drawHalf
  /\ unitInterval Sample2.drawLast
  /\ App.runTask (SocialFeedback "1001") Sample2.drawHalf Sample2.drawLast
     = [CallSendAPI
          {| recipient := "1001";
             body := TextBody
                       "29 mensen zagen deze afbeelding ook, 4 mensen kijken op dit moment"
                       "DEVELOPER_DEFINED_METADATA" |}].
Proof.
  assert (Hhalf : unitInterval Sample2.drawHalf).
  { repeat split; (reflexivity || discriminate). }
  assert (Hlast : unitInterval Sample2.drawLast).
  { repeat split; (reflexivity || discriminate). }
  split; [reflexivity|].
  split.
  { exact (proj1 (images_result_on_message_path "1001" None Sample.plainImage eq_refl)). }
  split; [exact Hhalf|]. split; [exact Hlast|].
  destruct (proj1 (proj2 (images_result_on_message_path
                            "1001" None Sample.plainImage eq_refl))
              Sample2.drawHalf Sample2.drawLast Hhalf Hlast)
    as (n & m & _ & _ & -> & -> & _ & _ & E).
  exact E.
Defined.

Example social_feedback_text :
  App.runTask (SocialFeedback "1001") Sample2.drawHalf Sample2.drawLast
  = [CallSendAPI
       {| recipient := "1001";
          body := TextBody "29 mensen zagen deze afbeelding ook, 4 mensen kijken op dit moment"
                    "DEVELOPER_DEFINED_METADATA" |}].
Proof. reflexivity. Qed.

(** A product that rounds up to a whole number before it is floored: the
    draw 1675758000882045 / 2 ^ 53 times 43 is less than 8 and is rounded
    to the double 8. *)
Example random_rounds_before_floor :
  random 8 50 Sample2.drawRounded = 16
  /\ (1675758000882045 * 43 < 8 * 2 ^ 53)%Z.
Proof. split; reflexivity. Qed.

(** The refactored server starts the same two timers, the link first. *)
Lemma refactored_images_result_on_message_path
    (senderID : string) (images : ImageResult) :
  Refactored.handleSearchResponse senderID None (Some (SRImages images))
  = Returns
      [Fb (FbSendTypingOff senderID);
       ConsoleLog "data";
       Fb (FbSendTextMessage senderID (caption images));
       Fb (FbSendImageMessage senderID (img_image images));
       SetTimeout (MoreInfoLink senderID images) 3000;
       SetTimeout (SocialFeedback senderID) 4000].
Proof. reflexivity. Qed.

(** ** The search callback of the postback handler *)



Example collection_follow_up_sends :
  sends (App.runTask (CollectionFollowUp "1001" Sample.nightWatch)
           Sample2.drawZero Sample2.drawZero)
  = [{| recipient := "1001";
        body := TextBody "Dit kun je trouwens zien in de collectie van Rijksmuseum"
                  "DEVELOPER_DEFINED_METADATA" |};
     {| recipient := "1001";
        body := AttachmentBody
                  (ButtonTemplate "Wil je meer weten?"
                     [WebUrlButton "http://www.wikidata.org/wiki/Q219831"
                                   "Lees verder"]) |};
     {| recipient := "1001";
        body := AttachmentBody
                  (ButtonTemplate "Nog een werk van deze schilder?"
                     [PostbackButton "Ja, leuk!" (Some "Q5598")]) |}].
Proof. reflexivity. Qed.

(** Without a collection the callback starts the social feedback timer
    only. *)
Lemma no_collection_no_follow_up
    (senderID : string) (err : option string) (images : ImageResult) :
  truthy (img_collection images) = false ->
  timersOf (effectsOf (App.postbackResponse senderID err (Some (SRImages images))))
  = if truthy err then [] else [(SocialFeedback senderID, 4000)].
Proof.
  intros H. unfold App.postbackResponse.
  destruct err as [[|c s]|]; cbn [truthy]; try reflexivity;
    cbn; rewrite H; reflexivity.
Qed.

(** ** The webhook route *)

Lemma responsesOf_app (t1 t2 : Trace) :
  responsesOf (t1 ++ t2) = responsesOf t1 ++ responsesOf t2.
Proof.
  induction t1 as [|e t1 IH]; [reflexivity|].
  destruct e; cbn [app responsesOf]; rewrite IH; reflexivity.
Qed.

Lemma sends_app (t1 t2 : Trace) :
  sends (t1 ++ t2) = sends t1 ++ sends t2.
Proof.
  induction t1 as [|e t1 IH]; [reflexivity|].
  destruct e; cbn [app sends]; rewrite IH; reflexivity.
Qed.

Lemma searchesOf_app (t1 t2 : Trace) :
  searchesOf (t1 ++ t2) = searchesOf t1 ++ searchesOf t2.
Proof.
  induction t1 as [|e t1 IH]; [reflexivity|].
  destruct e; cbn [app searchesOf]; rewrite IH; reflexivity.
Qed.

Lemma timersOf_app (t1 t2 : Trace) :
  timersOf (t1 ++ t2) = timersOf t1 ++ timersOf t2.
Proof.
  induction t1 as [|e t1 IH]; [reflexivity|].
  destruct e; cbn [app timersOf]; rewrite IH; reflexivity.
Qed.

Lemma log_lines_silent {A : Type} (fmt : string) (l : list A) :
  responsesOf (map (fun _ => ConsoleLog fmt) l) = []
  /\ timersOf (map (fun _ => ConsoleLog fmt) l) = [].
Proof. induction l as [|x l [IH1 IH2]]; split; auto. Qed.

(** No handler writes to the HTTP response or starts a timer. *)
Lemma receivedMessage_silent (event : MessagingEvent) (m : Message) :
  responsesOf (App.receivedMessage event m) = []
  /\ timersOf (App.receivedMessage event m) = [].
Proof.
  unfold App.receivedMessage.
  destruct (is_echo m); [split; reflexivity|].
  destruct (quick_reply m); [split; reflexivity|].
  destruct (truthy (text m)); [|split; reflexivity].
  set (parsedMsg := toLowerCase (trim (interpolate (text m)))).
  destruct (negb (indexOf parsedMsg "-" =? -1)%Z);
    [|destruct (parsedMsg =? "utrecht")%string;
      [|destruct (parsedMsg =? "surprise")%string]];
    split; reflexivity.
Qed.

Lemma dispatch_silent (event : MessagingEvent) :
  responsesOf (App.dispatch event) = [] /\ timersOf (App.dispatch event) = [].
Proof.
  unfold App.dispatch. destruct (App.route event); try (split; reflexivity).
  - apply receivedMessage_silent.
  - unfold App.receivedDeliveryConfirmation.
    rewrite responsesOf_app, timersOf_app.
    destruct (delivery_mids d) as [l|]; [|split; reflexivity].
    destruct (log_lines_silent "Received delivery confirmation for message ID: %s" l)
      as [-> ->].
    split; reflexivity.
Qed.

Lemma handled_silent (entries : list PageEntry) :
  let handled :=
    flat_map (fun pageEntry => flat_map App.dispatch (messaging pageEntry)) entries in
  responsesOf handled = [] /\ timersOf handled = [].
Proof.
  cbn zeta. induction entries as [|pageEntry entries [IH1 IH2]]; [split; reflexivity|].
  cbn [flat_map]. rewrite responsesOf_app, timersOf_app, IH1, IH2, !app_nil_r.
  induction (messaging pageEntry) as [|event events [IHe1 IHe2]]; [split; reflexivity|].
  cbn [flat_map]. rewrite responsesOf_app, timersOf_app, IHe1, IHe2, !app_nil_r.
  apply dispatch_silent.
Qed.

Lemma callback_no_response (k : Callback) (err : option string)
    (data : option SearchResult) :
  responsesOf (effectsOf (App.runCallback k err data)) = [].
Proof.
  destruct k as [senderID|senderID]; cbn [App.runCallback].
  - unfold App.handleSearchResponse.
    destruct (if truthy err then err else None); [reflexivity|].
    destruct data as [[b|i|t|ty]|]; reflexivity.
  - unfold App.postbackResponse.
    destruct (if truthy err then err else None); [reflexivity|].
    destruct data as [[b|i|t|ty]|]; try reflexivity.
    cbn. destruct (truthy (img_collection i)); reflexivity.
Qed.

Lemma sendAPICallback_no_response (messageData : MessageData)
    (error : option string) (response : option SendApiResponse)
    (body : option SendApiBody) :
  responsesOf (effectsOf (App.sendAPICallback messageData error response body)) = [].
Proof.
  unfold App.sendAPICallback.
  destruct (truthy error), response as [r|], body as [b|]; try reflexivity;
    destruct (statusCode r =? 200)%Z; try reflexivity;
    destruct (truthy (body_message_id b)); reflexivity.
Qed.

(** A later turn of the loop writes nothing to an HTTP response. *)
Lemma turn_no_response (w w' : Loop.World) :
  Loop.turn w w' ->
  responsesOf (Loop.performed w') = responsesOf (Loop.performed w).
Proof.
  intros Hturn. destruct Hturn as [w i error response body w' H
                                  | w i err data w' H
                                  | w i u1 u2 w' _ _ H].
  - unfold Loop.sent in H.
    destruct (nth_error (Loop.posts w) i) as [messageData|]; [|discriminate].
    injection H as <-. cbn [Loop.perform Loop.performed].
    rewrite responsesOf_app, sendAPICallback_no_response, app_nil_r. reflexivity.
  - unfold Loop.complete in H.
    destruct (nth_error (Loop.searches w) i) as [[c k]|]; [|discriminate].
    injection H as <-. cbn [Loop.perform Loop.performed].
    rewrite responsesOf_app, callback_no_response, app_nil_r. reflexivity.
  - unfold Loop.fire in H.
    destruct (nth_error (Loop.timers w) i) as [[task ms]|]; [|discriminate].
    injection H as <-. cbn [Loop.perform Loop.performed].
    destruct (task_starts_nothing task u1 u2) as (_ & _ & Hr).
    rewrite responsesOf_app, Hr, app_nil_r. reflexivity.
Qed.

Lemma turns_no_response (w w' : Loop.World) :
  Loop.turns w w' ->
  responsesOf (Loop.performed w') = responsesOf (Loop.performed w).
Proof.
  induction 1 as [w | w1 w2 w3 Hturn _ IH]; [reflexivity|].
  rewrite IH. apply turn_no_response. exact Hturn.
Qed.

(** What the bodies of [callSendAPI] post for a list of calls: nothing in
    mock mode, every body otherwise. *)
Lemma requests_of_calls (MODE : option string) (l : list MessageData) :
  requestsOf (flat_map (App.callSendAPI MODE) l)
  = if strictEq MODE "mock" then [] else l.
Proof.
  unfold App.callSendAPI. induction l as [|m l IH]; [destruct (strictEq _ _); reflexivity|].
  cbn [flat_map]. destruct (strictEq MODE "mock"); cbn [app requestsOf];
    [exact IH | rewrite IH; reflexivity].
Qed.

(** C4.  For an envelope whose object is [page], the route handles every
    event of every entry and then, as its last effect, answers with status
    200, once.  At that point every Send API request and every search the
    handlers have issued is still outstanding and no timer has been
    started; whatever turns follow, completions of requests or searches and
    timers, they write nothing to the response.  For an envelope with any
    other object the route does nothing and sends no response. *)
Theorem webhook_answers_200_for_page (data : WebhookEnvelope) :
  let handled :=
    flat_map (fun pageEntry => flat_map App.dispatch (messaging pageEntry))
             (entry data) in
  (object data = "page" ->
   App.webhook data = handled ++ [SendStatus 200]
   /\ responsesOf (App.webhook data) = [200]
   /\ (forall w,
       Loop.performed (Loop.request w data)
       = Loop.performed w ++ handled ++ [SendStatus 200]
       /\ Loop.posts (Loop.request w data)
          = Loop.posts w ++ (if Loop.mock w then [] else sends handled)
       /\ Loop.searches (Loop.request w data) = Loop.searches w ++ searchesOf handled
       /\ Loop.timers (Loop.request w data) = Loop.timers w
       /\ forall w',
           Loop.turns (Loop.request w data) w' ->
           responsesOf (Loop.performed w')
           = responsesOf (Loop.performed (Loop.request w data))))
  /\ (object data <> "page" ->
      App.webhook data = [] /\ responsesOf (App.webhook data) = []).
Proof.
  intros handled. split.
  - intros Hpage.
    assert (Hweb : App.webhook data = handled ++ [SendStatus 200]).
    { unfold App.webhook. rewrite Hpage. reflexivity. }
    destruct (handled_silent (entry data)) as [Hr Ht]. fold handled in Hr, Ht.
    split; [exact Hweb|]. split.
    { rewrite Hweb, responsesOf_app, Hr. reflexivity. }
    intros w. unfold Loop.request. rewrite Hweb.
    cbn [Loop.perform Loop.performed Loop.posts Loop.searches Loop.timers].
    rewrite requests_of_calls, sends_app, searchesOf_app, timersOf_app, Ht.
    cbn [sends searchesOf timersOf app]. rewrite !app_nil_r.
    split; [reflexivity|]. split; [reflexivity|]. split; [reflexivity|].
    split; [reflexivity|].
    intros w' Hturns. apply turns_no_response in Hturns. exact Hturns.
  - intros Hother.
    assert (Hweb : App.webhook data = []).
    { unfold App.webhook. destruct (String.eqb_spec (object data) "page") as [E|_].
      - contradiction.
      - reflexivity. }
    split; [exact Hweb|]. rewrite Hweb. reflexivity.
Qed.

Lemma webhook_answers_200_for_page_witness :
  (object (Sample.page [Sample.withMessage Sample.utrechtMessage]) = "page"
   /\ responsesOf (App.webhook (Sample.page [Sample.withMessage Sample.utrechtMessage]))
      = [200])
  /\ (object Sample.notAPage <> "page"
      /\ responsesOf (App.webhook Sample.notAPage) = []).
Proof.
  split.
  - split; [reflexivity|].
    apply (proj1 (webhook_answers_200_for_page
                    (Sample.page [Sample.withMessage Sample.utrechtMessage]))).
    reflexivity.
  - split; [discriminate|].
    apply (proj2 (webhook_answers_200_for_page Sample.notAPage)).
    discriminate.
Defined.

Example webhook_search_pending_at_response :
  Loop.request Loop.idle (Sample.page [Sample.withMessage Sample.utrechtMessage])
  = {| Loop.MODE := None;
       Loop.performed :=
         App.receivedMessage (Sample.withMessage Sample.utrechtMessage)
                             Sample.utrechtMessage
         ++ [SendStatus 200];
       Loop.called :=
         [Request {| recipient := "1001";
                     body := TextBody "Ik ben nu aan het zoeken, een momentje..."
                               "DEVELOPER_DEFINED_METADATA" |};
          Request {| recipient := "1001"; body := SenderAction "typing_on" |}];
       Loop.posts :=
         [{| recipient := "1001";
             body := TextBody "Ik ben nu aan het zoeken, een momentje..."
                       "DEVELOPER_DEFINED_METADATA" |};
          {| recipient := "1001"; body := SenderAction "typing_on" |}];
       Loop.searches := [(GetMonuments, HandleSearchResponse "1001")];
       Loop.timers := [] |}.
Proof. reflexivity. Qed.

(** The route of the refactored server has the same shape. *)
Lemma refactored_webhook_shape (data : WebhookEnvelope) :
  Refactored.webhook data
  = if (object data =? "page")%string then
      flat_map (fun pageEntry => flat_map Refactored.dispatch (messaging pageEntry))
               (entry data) ++ [SendStatus 200]
    else [].
Proof. reflexivity. Qed.

(** * Further properties *)

(** ** White space and case *)

Lemma isWhiteSpace_lowerChar (c : ascii) : isWhiteSpace (lowerChar c) = isWhiteSpace c.
Proof. destruct c as [[] [] [] [] [] [] [] []]; reflexivity. Qed.

Lemma lowerChar_idempotent (c : ascii) : lowerChar (lowerChar c) = lowerChar c.
Proof. destruct c as [[] [] [] [] [] [] [] []]; reflexivity. Qed.

Lemma lowerChar_hyphen (c : ascii) : Ascii.eqb (lowerChar c) "-" = Ascii.eqb c "-".
Proof. destruct c as [[] [] [] [] [] [] [] []]; reflexivity. Qed.

Lemma toLowerCase_idempotent (s : string) : toLowerCase (toLowerCase s) = toLowerCase s.
Proof.
  induction s as [|c s IH]; [reflexivity|].
  cbn [toLowerCase]. rewrite lowerChar_idempotent, IH. reflexivity.
Qed.

Lemma toLowerCase_trimStart (s : string) :
  toLowerCase (trimStart s) = trimStart (toLowerCase s).
Proof.
  induction s as [|c s IH]; [reflexivity|].
  cbn [trimStart toLowerCase]. rewrite isWhiteSpace_lowerChar.
  destruct (isWhiteSpace c); [exact IH | reflexivity].
Qed.

Lemma toLowerCase_trimEnd (s : string) :
  toLowerCase (trimEnd s) = trimEnd (toLowerCase s).
Proof.
  induction s as [|c s IH]; [reflexivity|].
  cbn [trimEnd toLowerCase]. rewrite <- IH, isWhiteSpace_lowerChar.
  destruct (trimEnd s) as [|d t]; cbn [toLowerCase].
  - destruct (isWhiteSpace c); reflexivity.
  - reflexivity.
Qed.

Lemma trimStart_idempotent (s : string) : trimStart (trimStart s) = trimStart s.
Proof.
  induction s as [|c s IH]; [reflexivity|].
  cbn [trimStart]. destruct (isWhiteSpace c) eqn:E; [exact IH|].
  cbn [trimStart]. rewrite E. reflexivity.
Qed.

Lemma trimEnd_idempotent (s : string) : trimEnd (trimEnd s) = trimEnd s.
Proof.
  induction s as [|c s IH]; [reflexivity|].
  cbn [trimEnd]. destruct (trimEnd s) as [|d t] eqn:E.
  - destruct (isWhiteSpace c) eqn:Ec; [reflexivity|].
    cbn [trimEnd]. rewrite Ec. reflexivity.
  - cbn [trimEnd]. cbn [trimEnd] in IH. rewrite IH. reflexivity.
Qed.

Lemma trimEnd_trimStart (s : string) : trimEnd (trimStart s) = trimStart (trimEnd s).
Proof.
  induction s as [|c s IH]; [reflexivity|].
  cbn [trimStart]. destruct (isWhiteSpace c) eqn:Ec.
  - rewrite IH. cbn [trimEnd]. rewrite Ec.
    destruct (trimEnd s) as [|d t]; [reflexivity|].
    cbn [trimStart]. rewrite Ec. reflexivity.
  - cbn [trimEnd]. rewrite Ec.
    destruct (trimEnd s) as [|d t]; cbn [trimStart]; rewrite Ec; reflexivity.
Qed.

Lemma trim_idempotent (s : string) : trim (trim s) = trim s.
Proof.
  unfold trim.
  rewrite <- (trimEnd_trimStart (trimStart s)).
  rewrite trimEnd_idempotent, trimStart_idempotent. reflexivity.
Qed.

Lemma toLowerCase_trim (s : string) : toLowerCase (trim s) = trim (toLowerCase s).
Proof.
  unfold trim. rewrite toLowerCase_trimEnd, toLowerCase_trimStart. reflexivity.
Qed.

Lemma parsed_idempotent_lower (t : string) :
  toLowerCase (toLowerCase (trim t)) = toLowerCase (trim t).
Proof. apply toLowerCase_idempotent. Qed.

(** The text as the message handler parses it is a fixed point of the
    parsing. *)
Lemma parsed_idempotent (t : string) :
  toLowerCase (trim (toLowerCase (trim t))) = toLowerCase (trim t).
Proof.
  rewrite <- toLowerCase_trim, toLowerCase_idempotent.
  rewrite toLowerCase_trim, toLowerCase_trim, trim_idempotent. reflexivity.
Qed.

(** ** Pieces of a split *)

Lemma split_pieces_clean (s : string) (c : ascii) :
  Forall (fun p => indexOf p c = -1) (split s c).
Proof.
  induction s as [|a s IH]; [repeat constructor|].
  cbn [split]. destruct (Ascii.eqb a c) eqn:Hac.
  - constructor; [reflexivity | exact IH].
  - destruct (split s c) as [|h t]; [repeat constructor; apply indexOf_cons; auto|].
    inversion IH as [|? ? Hh Ht]; subst.
    constructor; [|exact Ht]. apply indexOf_cons. split; assumption.
Qed.

Lemma join_split (s : string) (c : ascii) : join c (split s c) = s.
Proof.
  induction s as [|a s IH]; [reflexivity|].
  cbn [split]. destruct (Ascii.eqb a c) eqn:Hac.
  - apply Ascii.eqb_eq in Hac. subst a.
    pose proof (split_nonempty s c) as Hne.
    destruct (split s c) as [|h t]; [contradiction|].
    cbn [join append]. cbn [join] in IH. rewrite IH. reflexivity.
  - pose proof (split_nonempty s c) as Hne.
    destruct (split s c) as [|h [|y r]]; [contradiction | |].
    + cbn [join] in *. rewrite IH. reflexivity.
    + cbn [join append] in *. rewrite IH. reflexivity.
Qed.

Lemma toLowerCase_app (a b : string) :
  toLowerCase (a ++ b) = (toLowerCase a ++ toLowerCase b)%string.
Proof.
  induction a as [|c a IH]; [reflexivity|].
  cbn [append toLowerCase]. rewrite IH. reflexivity.
Qed.

Lemma lower_prefix (a b s : string) :
  toLowerCase s = (a ++ b)%string -> toLowerCase a = a.
Proof.
  revert s. induction a as [|c a IH]; intros s H; [reflexivity|].
  destruct s as [|d s]; [discriminate|].
  cbn [toLowerCase append] in H. injection H as Hc Hs.
  cbn [toLowerCase]. rewrite <- Hc, lowerChar_idempotent, (IH s Hs). reflexivity.
Qed.

Lemma lower_suffix (a b s : string) :
  toLowerCase s = (a ++ b)%string -> toLowerCase b = b.
Proof.
  revert s. induction a as [|c a IH]; intros s H.
  - cbn [append] in H. rewrite <- H. apply toLowerCase_idempotent.
  - destruct s as [|d s]; [discriminate|].
    cbn [toLowerCase append] in H. injection H as _ Hs. exact (IH s Hs).
Qed.

(** ** The message handler, case by case *)

(** Every search the message handler starts comes from a message that is
    no echo, has no quick reply and has a text; the request is read off the
    parsed text and the callback is the one of the sender. *)
Lemma search_inversion (event : MessagingEvent) (m : Message)
    (request : BotRequest) (k : Callback) :
  In (request, k) (searchesOf (App.receivedMessage event m)) ->
  is_echo m = false /\ quick_reply m = None
  /\ exists t,
      text m = Some t /\ t <> EmptyString
      /\ k = HandleSearchResponse (sender_id event)
      /\ request
         = (let parsedMsg := toLowerCase (trim t) in
            if negb (indexOf parsedMsg "-" =? -1)%Z then
              PainterByDate (nth_error (split parsedMsg "-") 1)
                            (nth_error (split parsedMsg "-") 0)
            else if (parsedMsg =? "utrecht")%string then GetMonuments
            else if (parsedMsg =? "surprise")%string then RandomArtist
            else SearchPainters parsedMsg).
Proof.
  intros Hin.
  destruct (is_echo m) eqn:Hecho.
  { unfold App.receivedMessage in Hin. rewrite Hecho in Hin. contradiction Hin. }
  destruct (quick_reply m) as [q|] eqn:Hqr.
  { unfold App.receivedMessage in Hin. rewrite Hecho, Hqr in Hin. contradiction Hin. }
  destruct (text m) as [[|c t]|] eqn:Htext;
    try (unfold App.receivedMessage in Hin; rewrite Hecho, Hqr, Htext in Hin;
         contradiction Hin).
  assert (Hne : String c t <> EmptyString) by discriminate.
  destruct (receivedMessage_text event m (String c t) Hecho Hqr Htext Hne) as [Happ _].
  rewrite Happ in Hin. cbn [searchesOf In] in Hin.
  destruct Hin as [Hin | []]. injection Hin as <- <-.
  split; [reflexivity|]. split; [reflexivity|].
  exists (String c t). repeat split. exact Hne.
Qed.

(** X1.  The message handler sends nothing exactly when the message is an
    echo; any other message is answered at once, first of all with a text
    to its sender. *)
Theorem message_answered_unless_echo (event : MessagingEvent) (m : Message) :
  (sends (App.receivedMessage event m) = [] <-> is_echo m = true)
  /\ (fbSends (Refactored.receivedMessage event m) = [] <-> is_echo m = true)
  /\ (is_echo m = true
      \/ exists messageText rest,
          sends (App.receivedMessage event m)
          = {| recipient := sender_id event;
               body := TextBody messageText "DEVELOPER_DEFINED_METADATA" |} :: rest).
Proof.
  unfold App.receivedMessage, Refactored.receivedMessage.
  destruct (is_echo m); [repeat split; auto|].
  destruct (quick_reply m).
  { repeat split; try discriminate. right. eexists _, _. reflexivity. }
  destruct (truthy (text m)).
  2:{ repeat split; try discriminate. right. eexists _, _. reflexivity. }
  set (parsedMsg := toLowerCase (trim (interpolate (text m)))).
  destruct (negb (indexOf parsedMsg "-" =? -1)%Z);
    [|destruct (parsedMsg =? "utrecht")%string;
      [|destruct (parsedMsg =? "surprise")%string]];
    (repeat split; try discriminate; right; eexists _, _; reflexivity).
Qed.

(** X2.  The message handler starts at most one search, with the callback
    of the sender, and starts none exactly when the message is an echo, has
    a quick reply, or has no text or an empty one. *)
Theorem search_started_iff_plain_text (event : MessagingEvent) (m : Message) :
  (searchesOf (App.receivedMessage event m) = []
   \/ exists request,
       searchesOf (App.receivedMessage event m)
       = [(request, HandleSearchResponse (sender_id event))])
  /\ (searchesOf (App.receivedMessage event m) = []
      <-> is_echo m = true \/ quick_reply m <> None \/ truthy (text m) = false)
  /\ searchesOf (Refactored.receivedMessage event m)
     = searchesOf (App.receivedMessage event m).
Proof.
  unfold App.receivedMessage, Refactored.receivedMessage.
  destruct (is_echo m); [repeat split; auto|].
  destruct (quick_reply m).
  { repeat split; auto. intros _. right. left. discriminate. }
  destruct (truthy (text m)); [|repeat split; auto].
  set (parsedMsg := toLowerCase (trim (interpolate (text m)))).
  assert (Hnot : ~ (false = true \/ @None QuickReply <> None \/ true = false)).
  { intros [H | [H | H]]; try discriminate. apply H. reflexivity. }
  destruct (negb (indexOf parsedMsg "-" =? -1)%Z);
    [|destruct (parsedMsg =? "utrecht")%string;
      [|destruct (parsedMsg =? "surprise")%string]];
    (split; [right; eexists; reflexivity|]; split; [|reflexivity];
     split; [discriminate | intros H; contradiction (Hnot H)]).
Qed.

(** X3.  For a message that is no echo and has no quick reply, whose text,
    trimmed and lower-cased, is [surprise]: the one call on the search
    collaborator is [randomArtist]. *)
Theorem surprise_calls_randomArtist
    (event : MessagingEvent) (m : Message) (t : string) :
  is_echo m = false -> quick_reply m = None -> text m = Some t ->
  toLowerCase (trim t) = "surprise" ->
  searchesOf (App.receivedMessage event m)
  = [(RandomArtist, HandleSearchResponse (sender_id event))]
  /\ searchesOf (Refactored.receivedMessage event m)
     = [(RandomArtist, HandleSearchResponse (sender_id event))].
Proof.
  intros Hecho Hqr Htext Hnorm.
  assert (Hne : t <> EmptyString).
  { intros ->. discriminate Hnorm. }
  destruct (receivedMessage_text event m t Hecho Hqr Htext Hne) as [Happ Href].
  rewrite Hnorm in Happ, Href. rewrite Happ, Href. split; reflexivity.
Qed.

Lemma surprise_calls_randomArtist_witness :
  is_echo Sample2.surpriseMessage = false
  /\ quick_reply Sample2.surpriseMessage = None
  /\ text Sample2.surpriseMessage = Some " Surprise "
  /\ toLowerCase (trim " Surprise ") = "surprise"
  /\ searchesOf (App.receivedMessage (Sample.withMessage Sample2.surpriseMessage)
                   Sample2.surpriseMessage)
     = [(RandomArtist, HandleSearchResponse "1001")].
Proof.
  split; [reflexivity|]. split; [reflexivity|]. split; [reflexivity|].
  split; [reflexivity|].
  apply (surprise_calls_randomArtist (Sample.withMessage Sample2.surpriseMessage)
           Sample2.surpriseMessage " Surprise ");
    reflexivity.
Defined.

(** X4.  For a message that is no echo and has no quick reply, whose text
    is not empty and, once trimmed and lower-cased, has no hyphen and is
    neither [utrecht] nor [surprise]: the one call on the search
    collaborator is [searchPainters] with the trimmed, lower-cased text. *)
Theorem other_text_calls_searchPainters
    (event : MessagingEvent) (m : Message) (t : string) :
  is_echo m = false -> quick_reply m = None -> text m = Some t ->
  t <> EmptyString ->
  indexOf (toLowerCase (trim t)) "-" = -1 ->
  toLowerCase (trim t) <> "utrecht" ->
  toLowerCase (trim t) <> "surprise" ->
  searchesOf (App.receivedMessage event m)
  = [(SearchPainters (toLowerCase (trim t)), HandleSearchResponse (sender_id event))]
  /\ searchesOf (Refactored.receivedMessage event m)
     = [(SearchPainters (toLowerCase (trim t)), HandleSearchResponse (sender_id event))].
Proof.
  intros Hecho Hqr Htext Hne Hhyphen Hu Hs.
  destruct (receivedMessage_text event m t Hecho Hqr Htext Hne) as [Happ Href].
  rewrite Hhyphen in Happ, Href.
  apply String.eqb_neq in Hu, Hs. rewrite Hu, Hs in Happ, Href.
  rewrite Happ, Href. split; reflexivity.
Qed.

Lemma other_text_calls_searchPainters_witness :
  is_echo Sample2.painterMessage = false
  /\ quick_reply Sample2.painterMessage = None
  /\ text Sample2.painterMessage = Some "  Vermeer "
  /\ "  Vermeer " <> EmptyString
  /\ indexOf (toLowerCase (trim "  Vermeer ")) "-" = -1
  /\ toLowerCase (trim "  Vermeer ") <> "utrecht"
  /\ toLowerCase (trim "  Vermeer ") <> "surprise"
  /\ searchesOf (App.receivedMessage (Sample.withMessage Sample2.painterMessage)
                   Sample2.painterMessage)
     = [(SearchPainters "vermeer", HandleSearchResponse "1001")].
Proof.
  split; [reflexivity|]. split; [reflexivity|]. split; [reflexivity|].
  split; [discriminate|]. split; [reflexivity|]. split; [discriminate|].
  split; [discriminate|].
  apply (other_text_calls_searchPainters
           (Sample.withMessage Sample2.painterMessage) Sample2.painterMessage
           "  Vermeer ");
    try reflexivity; discriminate.
Defined.

(** X5.  Whatever the message, a query handed to [searchPainters] is
    trimmed and lower-case, has no hyphen and is neither [utrecht] nor
    [surprise]. *)
Theorem searchPainters_query_is_parsed
    (event : MessagingEvent) (m : Message) (query : string) (k : Callback) :
  In (SearchPainters query, k) (searchesOf (App.receivedMessage event m)) ->
  trim query = query /\ toLowerCase query = query
  /\ indexOf query "-" = -1
  /\ query <> "utrecht" /\ query <> "surprise".
Proof.
  intros Hin.
  destruct (search_inversion event m _ k Hin) as (_ & _ & t & _ & _ & _ & Hreq).
  cbn zeta in Hreq.
  destruct (indexOf (toLowerCase (trim t)) "-" =? -1)%Z eqn:Hhyphen;
    cbn [negb] in Hreq; [|discriminate].
  destruct (String.eqb_spec (toLowerCase (trim t)) "utrecht") as [|Hu];
    [discriminate|].
  destruct (String.eqb_spec (toLowerCase (trim t)) "surprise") as [|Hs];
    [discriminate|].
  injection Hreq as ->. apply Z.eqb_eq in Hhyphen.
  split; [rewrite toLowerCase_trim; apply trim_idempotent|].
  split; [apply parsed_idempotent_lower|].
  repeat split; assumption.
Qed.

Lemma searchPainters_query_is_parsed_witness :
  In (SearchPainters "vermeer", HandleSearchResponse "1001")
     (searchesOf (App.receivedMessage (Sample.withMessage Sample2.painterMessage)
                    Sample2.painterMessage))
  /\ trim "vermeer" = "vermeer".
Proof.
  split; [left; reflexivity|].
  apply (searchPainters_query_is_parsed
           (Sample.withMessage Sample2.painterMessage) Sample2.painterMessage
           "vermeer" (HandleSearchResponse "1001")).
  left. reflexivity.
Defined.

(** X6.  A text made of white space only is not taken for a missing text:
    the message handler announces a search and calls [searchPainters] with
    the empty query. *)
Theorem blank_text_searches_empty_query
    (event : MessagingEvent) (m : Message) (t : string) :
  is_echo m = false -> quick_reply m = None -> text m = Some t ->
  t <> EmptyString -> trim t = EmptyString ->
  App.receivedMessage event m
  = [ConsoleLog "Received message for user %d and page %d at %d with message:";
     ConsoleLog "JSON.stringify(message)";
     CallSendAPI {| recipient := sender_id event;
                    body := TextBody "Ik ben nu aan het zoeken, een momentje..."
                              "DEVELOPER_DEFINED_METADATA" |};
     ConsoleLog "Turning typing indicator on";
     CallSendAPI {| recipient := sender_id event; body := SenderAction "typing_on" |};
     Bot (SearchPainters EmptyString) (HandleSearchResponse (sender_id event))].
Proof.
  intros Hecho Hqr Htext Hne Hblank.
  destruct (receivedMessage_text event m t Hecho Hqr Htext Hne) as [Happ _].
  rewrite Hblank in Happ. exact Happ.
Qed.

Lemma blank_text_searches_empty_query_witness :
  is_echo Sample2.blankMessage = false
  /\ quick_reply Sample2.blankMessage = None
  /\ text Sample2.blankMessage = Some "   "
  /\ "   " <> EmptyString
  /\ trim "   " = EmptyString
  /\ searchesOf (App.receivedMessage (Sample.withMessage Sample2.blankMessage)
                   Sample2.blankMessage)
     = [(SearchPainters EmptyString, HandleSearchResponse "1001")].
Proof.
  split; [reflexivity|]. split; [reflexivity|]. split; [reflexivity|].
  split; [discriminate|]. split; [reflexivity|].
  rewrite (blank_text_searches_empty_query
             (Sample.withMessage Sample2.blankMessage) Sample2.blankMessage "   "
             eq_refl eq_refl eq_refl);
    [reflexivity | discriminate | reflexivity].
Defined.

(** X7.  Whatever the message, [painterByDate] is called with two strings,
    never with [undefined]: the second and the first piece, in this order,
    of the parsed text [first-second] or [first-second-...].  Neither
    piece holds a hyphen or an upper-case letter. *)
Theorem painterByDate_arguments
    (event : MessagingEvent) (m : Message)
    (dateFrom dateTo : option string) (k : Callback) :
  In (PainterByDate dateFrom dateTo, k) (searchesOf (App.receivedMessage event m)) ->
  exists t first second tail,
    text m = Some t
    /\ dateFrom = Some second /\ dateTo = Some first
    /\ toLowerCase (trim t) = (first ++ String "-" (second ++ tail))%string
    /\ (tail = EmptyString \/ exists more, tail = String "-" more)
    /\ indexOf first "-" = -1 /\ indexOf second "-" = -1
    /\ toLowerCase first = first /\ toLowerCase second = second.
Proof.
  intros Hin.
  destruct (search_inversion event m _ k Hin) as (_ & _ & t & Htext & _ & _ & Hreq).
  cbn zeta in Hreq.
  destruct (indexOf (toLowerCase (trim t)) "-" =? -1)%Z eqn:Hhyphen;
    cbn [negb] in Hreq.
  { destruct (toLowerCase (trim t) =? "utrecht")%string; [discriminate|].
    destruct (toLowerCase (trim t) =? "surprise")%string; discriminate. }
  apply Z.eqb_neq in Hhyphen.
  destruct (split_present _ _ Hhyphen) as (x & y & r & Hsplit).
  rewrite Hsplit in Hreq. cbn [nth_error] in Hreq. injection Hreq as -> ->.
  pose proof (join_split (toLowerCase (trim t)) "-") as Hjoin.
  pose proof (split_pieces_clean (toLowerCase (trim t)) "-") as Hclean.
  rewrite Hsplit in Hjoin, Hclean.
  inversion Hclean as [|? ? Hx Hrest]; subst.
  inversion Hrest as [|? ? Hy _]; subst.
  assert (Htail : exists tail,
             join "-" (y :: r) = (y ++ tail)%string
             /\ (tail = EmptyString \/ exists more, tail = String "-" more)).
  { destruct r as [|z r].
    - exists EmptyString. split; [|left; reflexivity].
      cbn [join]. clear. induction y as [|c y IH]; [reflexivity|].
      cbn [append]. rewrite <- IH. reflexivity.
    - exists (String "-" (join "-" (z :: r))). split; [reflexivity|].
      right. eexists. reflexivity. }
  destruct Htail as (tail & Hyr & Hshape).
  assert (Hparsed : toLowerCase (trim t) = (x ++ String "-" (y ++ tail))%string).
  { rewrite <- Hyr, <- Hjoin. reflexivity. }
  exists t, x, y, tail.
  split; [exact Htext|]. split; [reflexivity|]. split; [reflexivity|].
  split; [exact Hparsed|]. split; [exact Hshape|].
  split; [exact Hx|]. split; [exact Hy|].
  split; [exact (lower_prefix _ _ _ Hparsed)|].
  pose proof (lower_suffix _ _ _ Hparsed) as Hs.
  cbn [toLowerCase] in Hs. injection Hs as Hs.
  apply (lower_prefix y tail (y ++ tail)). exact Hs.
Qed.

Lemma painterByDate_arguments_witness :
  In (PainterByDate (Some "1650") (Some "1600"), HandleSearchResponse "1001")
     (searchesOf (App.receivedMessage (Sample.withMessage Sample2.periodMessage)
                    Sample2.periodMessage))
  /\ exists t first second tail,
      text Sample2.periodMessage = Some t
      /\ Some "1650" = Some second /\ Some "1600" = Some first
      /\ toLowerCase (trim t) = (first ++ String "-" (second ++ tail))%string
      /\ (tail = EmptyString \/ exists more, tail = String "-" more)
      /\ indexOf first "-" = -1 /\ indexOf second "-" = -1
      /\ toLowerCase first = first /\ toLowerCase second = second.
Proof.
  split; [left; reflexivity|].
  apply (painterByDate_arguments
           (Sample.withMessage Sample2.periodMessage) Sample2.periodMessage
           (Some "1650") (Some "1600") (HandleSearchResponse "1001")).
  left. reflexivity.
Defined.

(** X8.  Case and surrounding white space of a text do not matter to
    what the message handler sends and searches: a message whose text is
    replaced by its trimmed, lower-cased form, provided that form is not
    empty, leads to the same bodies for the Send API, in the same order,
    and to the same call on the search collaborator.  (The log lines
    differ: they print the message.) *)
Theorem parsed_text_handled_alike
    (event : MessagingEvent) (m m' : Message) (t : string) :
  text m = Some t -> toLowerCase (trim t) <> EmptyString ->
  is_echo m' = is_echo m -> quick_reply m' = quick_reply m ->
  text m' = Some (toLowerCase (trim t)) ->
  sends (App.receivedMessage event m') = sends (App.receivedMessage event m)
  /\ searchesOf (App.receivedMessage event m')
     = searchesOf (App.receivedMessage event m)
  /\ fbSends (Refactored.receivedMessage event m')
     = fbSends (Refactored.receivedMessage event m)
  /\ searchesOf (Refactored.receivedMessage event m')
     = searchesOf (Refactored.receivedMessage event m).
Proof.
  intros Htext Hparsed Hecho Hqr Htext'.
  unfold App.receivedMessage, Refactored.receivedMessage.
  rewrite Hecho, Hqr, Htext, Htext'. cbn [interpolate].
  rewrite parsed_idempotent.
  assert (Ht : truthy (Some t) = true).
  { destruct t; [contradiction Hparsed; reflexivity | reflexivity]. }
  assert (Ht' : truthy (Some (toLowerCase (trim t))) = true).
  { destruct (toLowerCase (trim t)); [contradiction Hparsed; reflexivity | reflexivity]. }
  rewrite Ht, Ht'. repeat split; reflexivity.
Qed.

Lemma parsed_text_handled_alike_witness :
  text Sample.utrechtMessage = Some "  UtrechT "
  /\ toLowerCase (trim "  UtrechT ") <> EmptyString
  /\ text (Sample.textMessage "utrecht") = Some (toLowerCase (trim "  UtrechT "))
  /\ sends (App.receivedMessage (Sample.withMessage Sample.utrechtMessage)
              (Sample.textMessage "utrecht"))
     = sends (App.receivedMessage (Sample.withMessage Sample.utrechtMessage)
                Sample.utrechtMessage).
Proof.
  split; [reflexivity|]. split; [discriminate|]. split; [reflexivity|].
  apply (parsed_text_handled_alike (Sample.withMessage Sample.utrechtMessage)
           Sample.utrechtMessage (Sample.textMessage "utrecht") "  UtrechT ");
    try reflexivity; discriminate.
Defined.

(** ** The dispatcher and the other handlers *)

Lemma sends_receivedMessage_nil (event : MessagingEvent) (m : Message) :
  sends (App.receivedMessage event m) = [] <-> is_echo m = true.
Proof.
  unfold App.receivedMessage.
  destruct (is_echo m); [split; reflexivity|].
  destruct (quick_reply m); [split; discriminate|].
  destruct (truthy (text m)); [|split; discriminate].
  set (parsedMsg := toLowerCase (trim (interpolate (text m)))).
  destruct (negb (indexOf parsedMsg "-" =? -1)%Z);
    [|destruct (parsedMsg =? "utrecht")%string;
      [|destruct (parsedMsg =? "surprise")%string]];
    split; discriminate.
Qed.

Lemma log_lines_quiet {A : Type} (fmt : string) (l : list A) :
  sends (map (fun _ => ConsoleLog fmt) l) = []
  /\ searchesOf (map (fun _ => ConsoleLog fmt) l) = [].
Proof. induction l as [|x l [IH1 IH2]]; split; auto. Qed.

Lemma delivery_confirmation_quiet (event : MessagingEvent) (d : Delivery) :
  sends (App.receivedDeliveryConfirmation event d) = []
  /\ searchesOf (App.receivedDeliveryConfirmation event d) = [].
Proof.
  unfold App.receivedDeliveryConfirmation. rewrite sends_app, searchesOf_app.
  destruct (delivery_mids d) as [l|]; [|split; reflexivity].
  destruct (log_lines_quiet "Received delivery confirmation for message ID: %s" l)
    as [-> ->].
  split; reflexivity.
Qed.

(** X9.  The dispatcher of [app.js] hands nothing to the Send API exactly
    for the events it routes to the delivery, read and account-link
    loggers, for the events without a known tag, and for echoes.  Optin
    and postback events and all other messages are answered. *)
Theorem dispatch_silent_exactly_for_loggers (event : MessagingEvent) :
  sends (App.dispatch event) = []
  <-> match App.route event with
      | App.ToAuthentication _ | App.ToPostback _ => False
      | App.ToMessage m => is_echo m = true
      | App.ToDeliveryConfirmation _ | App.ToMessageRead _
      | App.ToAccountLink _ | App.Unknown => True
      end.
Proof.
  unfold App.dispatch. destruct (App.route event) as [o|m|d|p|r|a|].
  - split; [discriminate | contradiction].
  - apply sends_receivedMessage_nil.
  - split; [trivial | intros _; apply delivery_confirmation_quiet].
  - split; [discriminate | contradiction].
  - split; reflexivity.
  - split; reflexivity.
  - split; reflexivity.
Qed.

(** X10.  An event with a postback tag and no optin, message or delivery
    tag makes the dispatcher call [paintingsByArtist] with the payload as
    it came, then log, then acknowledge with one text to the sender; the
    search is under way before the acknowledgement is sent. *)
Theorem postback_event_starts_search (event : MessagingEvent) (p : Postback) :
  message event = None -> delivery event = None -> postback event = Some p ->
  Refactored.dispatch event
  = [Bot (PaintingsByArtist (payload p)) (PostbackResponse (sender_id event));
     ConsoleLog "Received postback for user %d and page %d with payload '%s' at %d";
     Fb (FbSendTextMessage (sender_id event)
           "Ik ben nu een schilderij aan het ophalen...")]
  /\ (optin event = None ->
      App.dispatch event
      = [Bot (PaintingsByArtist (payload p)) (PostbackResponse (sender_id event));
         ConsoleLog "Received postback for user %d and page %d with payload '%s' at %d";
         CallSendAPI {| recipient := sender_id event;
                        body := TextBody "Ik ben nu een schilderij aan het ophalen..."
                                  "DEVELOPER_DEFINED_METADATA" |}]).
Proof.
  intros Hm Hd Hp. split.
  - unfold Refactored.dispatch, Refactored.route. rewrite Hm, Hd, Hp. reflexivity.
  - intros Ho. unfold App.dispatch, App.route. rewrite Ho, Hm, Hd, Hp. reflexivity.
Qed.

Lemma postback_event_starts_search_witness :
  message Sample2.postbackOnly = None
  /\ delivery Sample2.postbackOnly = None
  /\ postback Sample2.postbackOnly = Some Sample.aPostback
  /\ optin Sample2.postbackOnly = None
  /\ searchesOf (App.dispatch Sample2.postbackOnly)
     = [(PaintingsByArtist "Q5598", PostbackResponse "1001")].
Proof.
  split; [reflexivity|]. split; [reflexivity|]. split; [reflexivity|].
  split; [reflexivity|].
  rewrite (proj2 (postback_event_starts_search Sample2.postbackOnly Sample.aPostback
                    eq_refl eq_refl eq_refl) eq_refl).
  reflexivity.
Defined.

(** X11.  The callback of the postback handler: an error is sent as one
    text, prefixed, whatever the data; a result that is not of type images
    is dropped without any reply; a completion with neither error nor
    result throws before any effect.  It never touches the typing
    indicator. *)
Theorem postback_response_cases
    (senderID : string) (err : option string) (data : option SearchResult) :
  (truthy err = true ->
   App.postbackResponse senderID err data
   = Returns [CallSendAPI {| recipient := senderID;
                             body := TextBody ("Er ging iets mis: " ++ interpolate err)
                                       "DEVELOPER_DEFINED_METADATA" |}]
   /\ Refactored.postbackResponse senderID err data
      = Returns [Fb (FbSendTextMessage senderID
                       ("Er ging iets mis: " ++ interpolate err))])
  /\ (truthy err = false ->
      match data with
      | Some (SRImages _) => True
      | Some _ =>
          App.postbackResponse senderID err data = Returns []
          /\ Refactored.postbackResponse senderID err data = Returns []
      | None =>
          App.postbackResponse senderID err data = Throws [] "TypeError"
          /\ Refactored.postbackResponse senderID err data = Throws [] "TypeError"
      end)
  /\ Forall (fun messageData =>
               match body messageData with
               | SenderAction _ => False
               | _ => True
               end)
            (sends (effectsOf (App.postbackResponse senderID err data))).
Proof.
  unfold App.postbackResponse, Refactored.postbackResponse.
  split; [|split].
  - intros H. apply truthy_some in H. destruct H as (c & s & ->).
    split; reflexivity.
  - intros H. rewrite H. destruct data as [[b|i|t|ty]|]; try exact I;
      split; reflexivity.
  - destruct (if truthy err then err else None).
    + repeat constructor.
    + destruct data as [[b|i|t|ty]|]; cbn;
        try (destruct (truthy (img_collection i))); repeat constructor.
Qed.

Lemma postback_response_cases_witness :
  (truthy (Some "Geen schilderijen") = true
   /\ App.postbackResponse "1001" (Some "Geen schilderijen")
        (Some (SRImages Sample.nightWatch))
      = Returns [CallSendAPI
                   {| recipient := "1001";
                      body := TextBody "Er ging iets mis: Geen schilderijen"
                                "DEVELOPER_DEFINED_METADATA" |}])
  /\ (truthy None = false
      /\ App.postbackResponse "1001" None (Some (SRText "hallo")) = Returns []).
Proof.
  split.
  - split; [reflexivity|].
    apply (proj1 (postback_response_cases "1001" (Some "Geen schilderijen")
                    (Some (SRImages Sample.nightWatch)))).
    reflexivity.
  - split; [reflexivity|].
    apply (proj1 (proj1 (proj2 (postback_response_cases
                                  "1001" None (Some (SRText "hallo"))))
                        eq_refl)).
Defined.

(** ** Batches *)

Lemma handled_flat (entries : list PageEntry) (f : MessagingEvent -> Trace) :
  flat_map (fun pageEntry => flat_map f (messaging pageEntry)) entries
  = flat_map f (flat_map messaging entries).
Proof.
  induction entries as [|pageEntry entries IH]; [reflexivity|].
  cbn [flat_map]. rewrite flat_map_app, IH. reflexivity.
Qed.

(** X12.  How a batch is cut into entries does not matter: two envelopes
    with the same object and the same events, in the same order, are
    handled with the same effects. *)
Theorem webhook_ignores_entry_boundaries (data data' : WebhookEnvelope) :
  object data = object data' -> eventsOf data = eventsOf data' ->
  App.webhook data = App.webhook data'
  /\ Refactored.webhook data = Refactored.webhook data'.
Proof.
  unfold eventsOf. intros Hobject Hevents.
  unfold App.webhook, Refactored.webhook.
  rewrite !handled_flat, Hobject, Hevents. split; reflexivity.
Qed.

Lemma webhook_ignores_entry_boundaries_witness :
  object Sample2.oneEntry = object Sample2.twoEntries
  /\ eventsOf Sample2.oneEntry = eventsOf Sample2.twoEntries
  /\ App.webhook Sample2.oneEntry = App.webhook Sample2.twoEntries.
Proof.
  split; [reflexivity|]. split; [reflexivity|].
  apply (webhook_ignores_entry_boundaries Sample2.oneEntry Sample2.twoEntries);
    reflexivity.
Defined.

Lemma dispatch_at_most_one_search (event : MessagingEvent) :
  (List.length (searchesOf (App.dispatch event)) <= 1)%nat.
Proof.
  unfold App.dispatch. destruct (App.route event) as [o|m|d|p|r|a|];
    try (cbn; lia).
  - unfold App.receivedMessage.
    destruct (is_echo m); [cbn; lia|].
    destruct (quick_reply m); [cbn; lia|].
    destruct (truthy (text m)); [|cbn; lia].
    set (parsedMsg := toLowerCase (trim (interpolate (text m)))).
    destruct (negb (indexOf parsedMsg "-" =? -1)%Z);
      [|destruct (parsedMsg =? "utrecht")%string;
        [|destruct (parsedMsg =? "surprise")%string]];
      cbn; lia.
  - destruct (delivery_confirmation_quiet event d) as [_ ->]. cbn. lia.
Qed.

(** X13.  A request starts at most one search per messaging event, and no
    search at all when the object of the envelope is not [page]. *)
Theorem webhook_at_most_one_search_per_event (data : WebhookEnvelope) :
  (List.length (searchesOf (App.webhook data)) <= List.length (eventsOf data))%nat
  /\ (searchesOf (App.webhook data) <> [] -> object data = "page").
Proof.
  unfold App.webhook, eventsOf. rewrite handled_flat. split.
  - destruct (object data =? "page")%string; [|cbn; lia].
    rewrite searchesOf_app. cbn [searchesOf]. rewrite app_nil_r.
    induction (flat_map messaging (entry data)) as [|event events IH]; [cbn; lia|].
    cbn [flat_map]. rewrite searchesOf_app, length_app.
    pose proof (dispatch_at_most_one_search event). cbn [List.length]. lia.
  - destruct (String.eqb_spec (object data) "page") as [E|_]; [intros _; exact E|].
    intros H. contradiction H. reflexivity.
Qed.

Lemma webhook_at_most_one_search_per_event_witness :
  searchesOf (App.webhook Sample2.oneEntry) <> []
  /\ object Sample2.oneEntry = "page".
Proof.
  split; [discriminate|].
  apply (proj2 (webhook_at_most_one_search_per_event Sample2.oneEntry)).
  discriminate.
Defined.

(** ** More on the signature check *)

Lemma truthy_with_separator (a b : string) (c : ascii) :
  truthy (Some (a ++ String c b)%string) = true.
Proof. destruct a; reflexivity. Qed.

(** X14.  The check reads only the piece of the header between its first
    and its second [=]: the method named before the first [=] is not
    looked at, and whatever follows a second [=] is ignored.  A header
    with any method, or with a tail after the right digest, passes. *)
Theorem signature_method_and_tail_ignored
    (hmacSha1 : string -> list N -> list N) (APP_SECRET : string) (buf : list N)
    (method tail : string) :
  indexOf method "=" = -1 ->
  App.verifyRequestSignature hmacSha1 APP_SECRET
    (Some (method ++ String "=" (hex (hmacSha1 APP_SECRET buf)))%string) buf
  = Returns []
  /\ App.verifyRequestSignature hmacSha1 APP_SECRET
       (Some (method ++ String "=" (hex (hmacSha1 APP_SECRET buf) ++ String "=" tail))%string)
       buf
     = Returns [].
Proof.
  intros Hmethod. unfold App.verifyRequestSignature.
  rewrite !truthy_with_separator. cbn [negb interpolate].
  rewrite !split_header by exact Hmethod.
  rewrite (split_absent _ "=" (hex_without_equals (hmacSha1 APP_SECRET buf))).
  rewrite (split_at_first _ tail "=" (hex_without_equals (hmacSha1 APP_SECRET buf))).
  cbn [nth_error looseNeq]. rewrite String.eqb_refl. split; reflexivity.
Qed.

Lemma signature_method_and_tail_ignored_witness :
  indexOf "md5" "=" = -1
  /\ App.verifyRequestSignature Sample.toyHmac "s3cret" (Some "md5=6e6f") [104; 105]%N
     = Returns []
  /\ App.verifyRequestSignature Sample.toyHmac "s3cret"
       (Some "md5=6e6f=0badc0de") [104; 105]%N
     = Returns [].
Proof.
  split; [reflexivity|].
  apply (signature_method_and_tail_ignored
           Sample.toyHmac "s3cret" [104; 105]%N "md5" "0badc0de").
  reflexivity.
Defined.

(** X15.  A request whose header is present and carries a wrong digest
    runs nothing: the route is not entered, so there is no send, no search
    and no response of the route.  A request whose header is the empty
    string is treated as one without header: one error line, then the
    route. *)
Theorem forged_request_runs_nothing
    (hmacSha1 : string -> list N -> list N) (APP_SECRET : string) (buf : list N)
    (data : WebhookEnvelope) :
  (forall signature,
      truthy (Some signature) = true ->
      nth_error (split signature "=") 1 <> Some (hex (hmacSha1 APP_SECRET buf)) ->
      App.postWebhook hmacSha1 APP_SECRET (Some signature) buf data
      = Throws [] "Couldn't validate the request signature.")
  /\ App.postWebhook hmacSha1 APP_SECRET (Some EmptyString) buf data
     = Returns (ConsoleError "Couldn't validate the signature." :: App.webhook data).
Proof.
  split; [|reflexivity].
  intros signature Htruthy Hneq.
  unfold App.postWebhook, App.verifyRequestSignature.
  rewrite Htruthy. cbn [negb interpolate].
  destruct (nth_error (split signature "=") 1) as [h|]; [|reflexivity].
  cbn [looseNeq].
  destruct (String.eqb_spec h (hex (hmacSha1 APP_SECRET buf))) as [->|_];
    [contradiction Hneq; reflexivity | reflexivity].
Qed.

Lemma forged_request_runs_nothing_witness :
  truthy (Some "sha1=0badc0de") = true
  /\ nth_error (split "sha1=0badc0de" "=") 1
     <> Some (hex (Sample.toyHmac "s3cret" [104; 105]%N))
  /\ App.postWebhook Sample.toyHmac "s3cret" (Some "sha1=0badc0de") [104; 105]%N
       Sample2.oneEntry
     = Throws [] "Couldn't validate the request signature.".
Proof.
  split; [reflexivity|]. split; [discriminate|].
  apply (proj1 (forged_request_runs_nothing
                  Sample.toyHmac "s3cret" [104; 105]%N Sample2.oneEntry));
    [reflexivity | discriminate].
Defined.

(** ** The callback of the Send API request *)

(** X16.  The callback of a Send API request throws exactly when the
    response or the body is missing, as after a transport error, and then
    before logging anything; otherwise it returns after three log lines,
    the last one five equals signs and two line feeds, which report
    success only when there is no error and the status is 200. *)
Theorem sendAPICallback_throws_iff_incomplete
    (messageData : MessageData) (error : option string)
    (response : option SendApiResponse) (body : option SendApiBody) :
  (App.sendAPICallback messageData error response body = Throws [] "TypeError"
   <-> response = None \/ body = None)
  /\ (forall r b,
      response = Some r -> body = Some b ->
      exists line,
        App.sendAPICallback messageData error response body
        = Returns [line; (if negb (truthy error) && (statusCode r =? 200)%Z
                          then ConsoleLog "Message data was:"
                          else ConsoleError "Message data was:");
                   (if negb (truthy error) && (statusCode r =? 200)%Z
                    then ConsoleLog separator else ConsoleError separator)])
  /\ separator
     = String "=" (String "=" (String "=" (String "=" (String "="
         (String (ascii_of_nat 10) (String (ascii_of_nat 10) EmptyString)))))).
Proof.
  unfold App.sendAPICallback. split; [|split; [|reflexivity]].
  - destruct (truthy error), response as [r|], body as [b|];
      try (destruct (statusCode r =? 200)%Z);
      split; intros H; try reflexivity; try discriminate; auto;
      destruct H; discriminate.
  - intros r b -> ->.
    destruct (truthy error); cbn [negb andb]; [eexists; reflexivity|].
    destruct (statusCode r =? 200)%Z; eexists; reflexivity.
Qed.

Lemma sendAPICallback_throws_iff_incomplete_witness :
  Some {| statusCode := 500; statusMessage := "Internal Server Error" |}
  = Some {| statusCode := 500; statusMessage := "Internal Server Error" |}
  /\ exists line,
      App.sendAPICallback {| recipient := "1001"; body := SenderAction "typing_on" |}
        None
        (Some {| statusCode := 500; statusMessage := "Internal Server Error" |})
        (Some {| body_recipient_id := None; body_message_id := None;
                 body_error := Some "(#100) No matching user found" |})
      = Returns [line; ConsoleError "Message data was:"; ConsoleError separator].
Proof.
  split; [reflexivity|].
  apply (proj1 (proj2 (sendAPICallback_throws_iff_incomplete
                  {| recipient := "1001"; body := SenderAction "typing_on" |}
                  None
                  (Some {| statusCode := 500; statusMessage := "Internal Server Error" |})
                  (Some {| body_recipient_id := None; body_message_id := None;
                           body_error := Some "(#100) No matching user found" |})))
               _ _ eq_refl eq_refl).
Defined.

(** X17.  Whatever the outcome of a Send API request, its callback only
    writes log lines: a failed send is not sent again, nothing is
    scheduled and the search collaborator is not called. *)
Theorem sendAPICallback_only_logs
    (messageData : MessageData) (error : option string)
    (response : option SendApiResponse) (body : option SendApiBody) :
  Forall (fun e => match e with
                   | ConsoleLog _ | ConsoleError _ => True
                   | _ => False
                   end)
         (effectsOf (App.sendAPICallback messageData error response body))
  /\ sends (effectsOf (App.sendAPICallback messageData error response body)) = []
  /\ searchesOf (effectsOf (App.sendAPICallback messageData error response body)) = []
  /\ timersOf (effectsOf (App.sendAPICallback messageData error response body)) = [].
Proof.
  unfold App.sendAPICallback.
  destruct (truthy error), response as [r|], body as [b|];
    try (destruct (statusCode r =? 200)%Z);
    try (destruct (truthy (body_message_id b)));
    repeat split; repeat constructor.
Qed.

(** ** Who is written to *)

Section Addressees.

Variable P : string -> Prop.

Lemma effectFor_app (t1 t2 : Trace) :
  Forall (effectFor P) t1 -> Forall (effectFor P) t2 ->
  Forall (effectFor P) (t1 ++ t2).
Proof. intros H1 H2. apply Forall_app. split; assumption. Qed.

Lemma effectFor_log_lines {A : Type} (fmt : string) (l : list A) :
  Forall (effectFor P) (map (fun _ => ConsoleLog fmt) l).
Proof. induction l; constructor; [exact I | assumption]. Qed.

Lemma effectFor_receivedMessage (event : MessagingEvent) (m : Message) :
  P (sender_id event) -> Forall (effectFor P) (App.receivedMessage event m).
Proof.
  intros HP. unfold App.receivedMessage.
  destruct (is_echo m); [repeat constructor|].
  destruct (quick_reply m); [repeat constructor; exact HP|].
  destruct (truthy (text m)); [|repeat constructor; exact HP].
  set (parsedMsg := toLowerCase (trim (interpolate (text m)))).
  destruct (negb (indexOf parsedMsg "-" =? -1)%Z);
    [|destruct (parsedMsg =? "utrecht")%string;
      [|destruct (parsedMsg =? "surprise")%string]];
    repeat constructor; exact HP.
Qed.

Lemma effectFor_dispatch (event : MessagingEvent) :
  P (sender_id event) -> Forall (effectFor P) (App.dispatch event).
Proof.
  intros HP. unfold App.dispatch.
  destruct (App.route event) as [o|m|d|p|r|a|];
    try (repeat constructor; exact HP).
  - apply effectFor_receivedMessage. exact HP.
  - unfold App.receivedDeliveryConfirmation. apply effectFor_app.
    + destruct (delivery_mids d); [apply effectFor_log_lines | constructor].
    + repeat constructor.
Qed.

Lemma effectFor_webhook (data : WebhookEnvelope) :
  Forall (fun event => P (sender_id event)) (eventsOf data) ->
  Forall (effectFor P) (App.webhook data).
Proof.
  unfold eventsOf, App.webhook. intros H.
  destruct (object data =? "page")%string; [|constructor].
  apply effectFor_app; [|repeat constructor].
  rewrite handled_flat.
  induction (flat_map messaging (entry data)) as [|event events IH]; [constructor|].
  inversion H as [|? ? He Hes]; subst. cbn [flat_map].
  apply effectFor_app; [apply effectFor_dispatch; exact He | exact (IH Hes)].
Qed.

Lemma effectFor_callback (k : Callback) (err : option string)
    (data : option SearchResult) :
  P (callbackTarget k) ->
  Forall (effectFor P) (effectsOf (App.runCallback k err data)).
Proof.
  intros HP. destruct k as [senderID|senderID]; cbn [App.runCallback callbackTarget] in *.
  - unfold App.handleSearchResponse.
    destruct (if truthy err then err else None); [repeat constructor; exact HP|].
    destruct data as [[b|i|t|ty]|]; repeat constructor; exact HP.
  - unfold App.postbackResponse.
    destruct (if truthy err then err else None); [repeat constructor; exact HP|].
    destruct data as [[b|i|t|ty]|]; try (repeat constructor; exact HP).
    cbn. destruct (truthy (img_collection i)); repeat constructor; exact HP.
Qed.

Lemma effectFor_task (task : Task) (u1 u2 : Draw) :
  P (taskTarget task) -> Forall (effectFor P) (App.runTask task u1 u2).
Proof.
  intros HP. destruct task; repeat constructor; exact HP.
Qed.

Lemma effectFor_sendAPICallback (messageData : MessageData) (error : option string)
    (response : option SendApiResponse) (body : option SendApiBody) :
  Forall (effectFor P) (effectsOf (App.sendAPICallback messageData error response body)).
Proof.
  unfold App.sendAPICallback.
  destruct (truthy error), response as [r|], body as [b|];
    try (destruct (statusCode r =? 200)%Z);
    try (destruct (truthy (body_message_id b)));
    repeat constructor.
Qed.

Lemma effectFor_sends (t : Trace) :
  Forall (effectFor P) t ->
  Forall (fun messageData => P (recipient messageData)) (sends t).
Proof.
  induction 1 as [|e t He _ IH]; [constructor|].
  destruct e; cbn [sends]; try exact IH. constructor; [exact He | exact IH].
Qed.

Lemma effectFor_searches (t : Trace) :
  Forall (effectFor P) t ->
  Forall (fun s => P (callbackTarget (snd s))) (searchesOf t).
Proof.
  induction 1 as [|e t He _ IH]; [constructor|].
  destruct e; cbn [searchesOf]; try exact IH. constructor; [exact He | exact IH].
Qed.

Lemma effectFor_timers (t : Trace) :
  Forall (effectFor P) t ->
  Forall (fun x => P (taskTarget (fst x))) (timersOf t).
Proof.
  induction 1 as [|e t He _ IH]; [constructor|].
  destruct e; cbn [timersOf]; try exact IH. constructor; [exact He | exact IH].
Qed.

Lemma Forall_without {A : Type} (Q : A -> Prop) (i : nat) (l : list A) :
  Forall Q l -> Forall Q (Loop.without i l).
Proof.
  intros H. revert i. induction H as [|x l Hx Hl IH]; intros i.
  - destruct i; constructor.
  - destruct i as [|i]; [exact Hl|].
    change (Loop.without (S i) (x :: l)) with (x :: Loop.without i l).
    constructor; [exact Hx | apply IH].
Qed.

Lemma Forall_nth_error {A : Type} (Q : A -> Prop) (i : nat) (l : list A) (x : A) :
  Forall Q l -> nth_error l i = Some x -> Q x.
Proof.
  intros H Hx. rewrite Forall_forall in H. apply H.
  apply nth_error_In with (n := i). exact Hx.
Qed.

Lemma serves_perform (w : Loop.World) (t : Trace) :
  Conversation.serves P w -> Forall (effectFor P) t ->
  Conversation.serves P (Loop.perform w t).
Proof.
  intros (Hdone & Hposts & Hsearches & Htimers) Ht.
  unfold Conversation.serves, Loop.perform.
  cbn [Loop.performed Loop.posts Loop.searches Loop.timers].
  split; [apply Forall_app; split; assumption|].
  split.
  { apply Forall_app. split; [assumption|]. rewrite requests_of_calls.
    destruct (strictEq (Loop.MODE w) "mock");
      [constructor | apply effectFor_sends; exact Ht]. }
  split.
  - apply Forall_app. split; [assumption | apply effectFor_searches; exact Ht].
  - apply Forall_app. split; [assumption | apply effectFor_timers; exact Ht].
Qed.

Lemma serves_turn (w w' : Loop.World) :
  Conversation.serves P w -> Loop.turn w w' -> Conversation.serves P w'.
Proof.
  intros Hw Hturn. pose proof Hw as (Hdone & Hposts & Hsearches & Htimers).
  destruct Hturn as [w i error response body w' H
                    | w i err data w' H
                    | w i u1 u2 w' _ _ H].
  - unfold Loop.sent in H.
    destruct (nth_error (Loop.posts w) i) as [messageData|]; [|discriminate].
    injection H as <-. apply serves_perform; [|apply effectFor_sendAPICallback].
    repeat split; cbn [Loop.performed Loop.posts Loop.searches Loop.timers];
      try assumption.
    apply Forall_without. exact Hposts.
  - unfold Loop.complete in H.
    destruct (nth_error (Loop.searches w) i) as [[c k]|] eqn:Hi; [|discriminate].
    injection H as <-. apply serves_perform.
    + repeat split; cbn [Loop.performed Loop.posts Loop.searches Loop.timers];
        try assumption.
      apply Forall_without. exact Hsearches.
    + apply effectFor_callback.
      exact (Forall_nth_error _ _ _ _ Hsearches Hi).
  - unfold Loop.fire in H.
    destruct (nth_error (Loop.timers w) i) as [[task ms]|] eqn:Hi; [|discriminate].
    injection H as <-. apply serves_perform.
    + repeat split; cbn [Loop.performed Loop.posts Loop.searches Loop.timers];
        try assumption.
      apply Forall_without. exact Htimers.
    + apply effectFor_task.
      exact (Forall_nth_error _ _ _ _ Htimers Hi).
Qed.

End Addressees.

(** X18.  The server writes only to users who wrote to it.  Start from a
    state in which every message sent went to a user of [P] and all
    outstanding work is for users of [P]; handle any requests whose events
    all come from users of [P], with any later turns in between.  Then
    still every message handed to the Send API went to a user of [P], and
    all outstanding requests, callbacks and timers are for users of [P]. *)
Theorem only_senders_are_written_to (P : string -> Prop) (w w' : Loop.World) :
  Conversation.serves P w -> Conversation.run P w w' ->
  Conversation.serves P w'
  /\ Forall (fun messageData => P (recipient messageData)) (sends (Loop.performed w')).
Proof.
  intros Hw Hrun.
  assert (Hserves : Conversation.serves P w').
  { induction Hrun as [w | w data w' Hevents _ IH | w w1 w' Hturn _ IH].
    - exact Hw.
    - apply IH. unfold Loop.request. apply serves_perform; [exact Hw|].
      apply effectFor_webhook. exact Hevents.
    - apply IH. exact (serves_turn P w w1 Hw Hturn). }
  split; [exact Hserves|].
  apply effectFor_sends. exact (proj1 Hserves).
Qed.

Lemma only_senders_are_written_to_witness :
  Conversation.serves (eq "1001") Loop.idle
  /\ Conversation.run (eq "1001") Loop.idle (Loop.request Loop.idle Sample2.oneEntry)
  /\ Forall (fun messageData => "1001" = recipient messageData)
            (sends (Loop.performed (Loop.request Loop.idle Sample2.oneEntry))).
Proof.
  assert (Hidle : Conversation.serves (eq "1001") Loop.idle).
  { repeat split; constructor. }
  assert (Hrun : Conversation.run (eq "1001") Loop.idle
                   (Loop.request Loop.idle Sample2.oneEntry)).
  { apply Conversation.run_request with (data := Sample2.oneEntry).
    - repeat constructor.
    - apply Conversation.run_done. }
  split; [exact Hidle|]. split; [exact Hrun|].
  exact (proj2 (only_senders_are_written_to (eq "1001") Loop.idle _ Hidle Hrun)).
Defined.

(** ** The loop comes to rest *)

Lemma length_without {A : Type} (i : nat) (l : list A) (x : A) :
  nth_error l i = Some x -> S (List.length (Loop.without i l)) = List.length l.
Proof.
  revert i. induction l as [|y l IH]; intros i H.
  - destruct i; discriminate.
  - destruct i as [|i]; [reflexivity|].
    change (Loop.without (S i) (y :: l)) with (y :: Loop.without i l).
    cbn [List.length]. rewrite (IH i H). reflexivity.
Qed.

Lemma callback_leaves_little (k : Callback) (err : option string)
    (data : option SearchResult) :
  (List.length (sends (effectsOf (App.runCallback k err data))) <= 3)%nat
  /\ searchesOf (effectsOf (App.runCallback k err data)) = []
  /\ (List.length (timersOf (effectsOf (App.runCallback k err data))) <= 2)%nat.
Proof.
  destruct k as [senderID|senderID]; cbn [App.runCallback].
  - unfold App.handleSearchResponse.
    destruct (if truthy err then err else None); [cbn; repeat split; lia|].
    destruct data as [[b|i|t|ty]|]; cbn; repeat split; lia.
  - unfold App.postbackResponse.
    destruct (if truthy err then err else None); [cbn; repeat split; lia|].
    destruct data as [[b|i|t|ty]|]; cbn; try (repeat split; lia).
    destruct (truthy (img_collection i)); cbn; repeat split; lia.
Qed.

Lemma task_leaves_little (task : Task) (u1 u2 : Draw) :
  (List.length (sends (App.runTask task u1 u2)) <= 3)%nat.
Proof. destruct task; cbn; lia. Qed.

Lemma sendAPICallback_leaves_nothing (messageData : MessageData)
    (error : option string) (response : option SendApiResponse)
    (body : option SendApiBody) :
  sends (effectsOf (App.sendAPICallback messageData error response body)) = []
  /\ searchesOf (effectsOf (App.sendAPICallback messageData error response body)) = []
  /\ timersOf (effectsOf (App.sendAPICallback messageData error response body)) = [].
Proof.
  unfold App.sendAPICallback.
  destruct (truthy error), response as [r|], body as [b|];
    try (destruct (statusCode r =? 200)%Z);
    try (destruct (truthy (body_message_id b)));
    repeat split.
Qed.

Lemma posts_of_perform (MODE : option string) (t : Trace) :
  (List.length (requestsOf (flat_map (App.callSendAPI MODE) (sends t)))
   <= List.length (sends t))%nat.
Proof.
  rewrite requests_of_calls. destruct (strictEq MODE "mock"); cbn [List.length]; lia.
Qed.

(** Every later turn uses up outstanding work. *)
Lemma turn_decreases (w w' : Loop.World) :
  Loop.turn w w' -> (Conversation.outstanding w' < Conversation.outstanding w)%nat.
Proof.
  intros Hturn. unfold Conversation.outstanding.
  destruct Hturn as [w i error response body w' H
                    | w i err data w' H
                    | w i u1 u2 w' _ _ H].
  - unfold Loop.sent in H.
    destruct (nth_error (Loop.posts w) i) as [messageData|] eqn:Hi; [|discriminate].
    injection H as <-.
    cbn [Loop.perform Loop.MODE Loop.posts Loop.searches Loop.timers].
    destruct (sendAPICallback_leaves_nothing messageData error response body)
      as (Hs & -> & ->).
    pose proof (length_without i _ _ Hi).
    rewrite !length_app, Hs. cbn [flat_map requestsOf List.length]. lia.
  - unfold Loop.complete in H.
    destruct (nth_error (Loop.searches w) i) as [[c k]|] eqn:Hi; [|discriminate].
    injection H as <-.
    cbn [Loop.perform Loop.MODE Loop.posts Loop.searches Loop.timers].
    destruct (callback_leaves_little k err data) as (Hs & -> & Ht).
    pose proof (posts_of_perform (Loop.MODE w)
                  (effectsOf (App.runCallback k err data))) as Hp.
    pose proof (length_without i _ _ Hi).
    rewrite !length_app. cbn [List.length]. lia.
  - unfold Loop.fire in H.
    destruct (nth_error (Loop.timers w) i) as [[task ms]|] eqn:Hi; [|discriminate].
    injection H as <-.
    cbn [Loop.perform Loop.MODE Loop.posts Loop.searches Loop.timers].
    destruct (task_starts_nothing task u1 u2) as (-> & -> & _).
    pose proof (task_leaves_little task u1 u2) as Hs.
    pose proof (posts_of_perform (Loop.MODE w) (App.runTask task u1 u2)) as Hp.
    pose proof (length_without i _ _ Hi).
    rewrite !length_app. cbn [List.length]. lia.
Qed.

(** X19.  Left alone, the loop comes to rest: completions and timers never
    start a search, a timer starts no timer, and so from any state at most
    twelve turns per outstanding search, four per outstanding timer and
    one per outstanding Send API request can follow before a new request
    arrives. *)
Theorem turns_are_bounded (n : nat) (w w' : Loop.World) :
  Conversation.turnsN n w w' ->
  (n + Conversation.outstanding w' <= Conversation.outstanding w)%nat.
Proof.
  induction 1 as [w | n w1 w2 w3 Hturn _ IH]; [lia|].
  pose proof (turn_decreases w1 w2 Hturn). lia.
Qed.

Lemma turns_are_bounded_witness :
  Conversation.turnsN 1 Sample2.asked Sample2.answered
  /\ (1 + Conversation.outstanding Sample2.answered
      <= Conversation.outstanding Sample2.asked)%nat.
Proof.
  assert (H : Conversation.turnsN 1 Sample2.asked Sample2.answered).
  { apply Conversation.turnsN_more with (w2 := Sample2.answered).
    - apply Loop.turn_complete
        with (i := 0%nat) (err := Some "Geen resultaten gevonden") (data := None).
      reflexivity.
    - apply Conversation.turnsN_none. }
  split; [exact H|].
  exact (turns_are_bounded 1 Sample2.asked Sample2.answered H).
Defined.

(** ** The two versions of the server *)

Lemma inlined_receivedMessage (event : MessagingEvent) (m : Message) :
  inlinedSends (Refactored.receivedMessage event m) = sends (App.receivedMessage event m)
  /\ searchesOf (Refactored.receivedMessage event m)
     = searchesOf (App.receivedMessage event m).
Proof.
  unfold App.receivedMessage, Refactored.receivedMessage.
  destruct (is_echo m); [split; reflexivity|].
  destruct (quick_reply m); [split; reflexivity|].
  destruct (truthy (text m)); [|split; reflexivity].
  set (parsedMsg := toLowerCase (trim (interpolate (text m)))).
  destruct (negb (indexOf parsedMsg "-" =? -1)%Z);
    [|destruct (parsedMsg =? "utrecht")%string;
      [|destruct (parsedMsg =? "surprise")%string]];
    split; reflexivity.
Qed.

Lemma inlined_callback (k : Callback) (err : option string)
    (data : option SearchResult) :
  inlinedSends (effectsOf (Refactored.runCallback k err data))
  = sends (effectsOf (App.runCallback k err data))
  /\ (forall x,
      In x (timersOf (effectsOf (Refactored.runCallback k err data)))
      <-> In x (timersOf (effectsOf (App.runCallback k err data))))
  /\ List.length (timersOf (effectsOf (Refactored.runCallback k err data)))
     = List.length (timersOf (effectsOf (App.runCallback k err data))).
Proof.
  destruct k as [senderID|senderID]; cbn [App.runCallback Refactored.runCallback].
  - unfold App.handleSearchResponse, Refactored.handleSearchResponse.
    destruct (if truthy err then err else None);
      [repeat split; auto|].
    destruct data as [[b|i|t|ty]|]; (split; [reflexivity|]);
      (split; [|reflexivity]); intros x; cbn; tauto.
  - unfold App.postbackResponse, Refactored.postbackResponse.
    destruct (if truthy err then err else None);
      [repeat split; auto|].
    destruct data as [[b|i|t|ty]|]; cbn;
      try (destruct (truthy (img_collection i)); cbn);
      (split; [reflexivity|]); (split; [intros x; tauto | reflexivity]).
Qed.

(** X20.  The refactoring kept the replies.  When the send helpers of the
    library build their bodies as the helpers of [app.js] do, the message
    handler, the postback handler, the two search callbacks and the three
    timer closures of the refactored server hand the same bodies to the
    Send API, in the same order, as those of [app.js]; the handlers start
    the same searches; and the callbacks start the same timers, the social
    feedback timer now being started by the callback itself and not by
    [sendImageMessage]. *)
Theorem refactoring_keeps_replies :
  (forall event m,
      inlinedSends (Refactored.receivedMessage event m)
      = sends (App.receivedMessage event m)
      /\ searchesOf (Refactored.receivedMessage event m)
         = searchesOf (App.receivedMessage event m))
  /\ (forall event p,
      inlinedSends (Refactored.receivedPostback event p)
      = sends (App.receivedPostback event p)
      /\ searchesOf (Refactored.receivedPostback event p)
         = searchesOf (App.receivedPostback event p))
  /\ (forall k err data,
      inlinedSends (effectsOf (Refactored.runCallback k err data))
      = sends (effectsOf (App.runCallback k err data))
      /\ (forall x,
          In x (timersOf (effectsOf (Refactored.runCallback k err data)))
          <-> In x (timersOf (effectsOf (App.runCallback k err data))))
      /\ List.length (timersOf (effectsOf (Refactored.runCallback k err data)))
         = List.length (timersOf (effectsOf (App.runCallback k err data))))
  /\ (forall task u1 u2,
      inlinedSends (Refactored.runTask task u1 u2) = sends (App.runTask task u1 u2)
      /\ timersOf (App.runTask task u1 u2) = []
      /\ timersOf (Refactored.runTask task u1 u2) = []).
Proof.
  split; [exact inlined_receivedMessage|].
  split; [intros event p; split; reflexivity|].
  split; [exact inlined_callback|].
  intros task u1 u2. destruct task; repeat split.
Qed.

(** X21.  On an event without optin tag the two dispatchers agree: same
    bodies for the Send API, in the same order, under the reading of X20,
    and same searches.  With an optin tag they differ: [app.js] answers
    the optin, the refactored server does not know the tag. *)
Theorem dispatchers_agree_without_optin (event : MessagingEvent) :
  optin event = None ->
  inlinedSends (Refactored.dispatch event) = sends (App.dispatch event)
  /\ searchesOf (Refactored.dispatch event) = searchesOf (App.dispatch event).
Proof.
  intros Ho. unfold App.dispatch, Refactored.dispatch, App.route, Refactored.route.
  rewrite Ho.
  destruct (message event) as [m|]; [apply inlined_receivedMessage|].
  destruct (delivery event) as [d|].
  { destruct (delivery_confirmation_quiet event d) as [-> ->]. split; reflexivity. }
  destruct (postback event) as [p|]; [split; reflexivity|].
  destruct (read event) as [r|]; [split; reflexivity|].
  destruct (account_linking event); split; reflexivity.
Qed.

Lemma dispatchers_agree_without_optin_witness :
  optin Sample2.postbackOnly = None
  /\ inlinedSends (Refactored.dispatch Sample2.postbackOnly)
     = sends (App.dispatch Sample2.postbackOnly).
Proof.
  split; [reflexivity|].
  apply (dispatchers_agree_without_optin Sample2.postbackOnly). reflexivity.
Defined.

Example dispatchers_differ_on_optin :
  sends (App.dispatch Sample.optinAndMessage)
  = [{| recipient := "1001";
        body := TextBody "Authentication successful" "DEVELOPER_DEFINED_METADATA" |}]
  /\ inlinedSends (Refactored.dispatch Sample.optinAndMessage)
     = [{| recipient := "1001";
           body := TextBody "Ik ben nu aan het zoeken, een momentje..."
                     "DEVELOPER_DEFINED_METADATA" |};
        {| recipient := "1001"; body := SenderAction "typing_on" |}].
Proof. split; reflexivity. Qed.

(** ** A whole exchange *)

(** X22.  A postback exchange, end to end, outside mock mode.  Starting
    from rest, a request with one postback event is handled, the search
    completes with an image that has a collection, the social feedback
    timer fires and then the collection timer.  The handlers have then
    called [callSendAPI], in this order, for the acknowledgement, the
    caption, the image, the social feedback text, the collection text, the
    link and the button; one response 200 was written; no search and no
    timer is left, and the seven requests to the Send API, none of which
    has completed, are all still outstanding. *)
Theorem postback_exchange
    (event : MessagingEvent) (p : Postback) (images : ImageResult)
    (u1 u2 u3 u4 : Draw) :
  optin event = None -> message event = None -> delivery event = None ->
  postback event = Some p ->
  truthy (img_collection images) = true ->
  exists w,
    Conversation.andThen
      (Conversation.andThen
         (Loop.complete (Loop.request Loop.idle (Sample.page [event])) 0
            None (Some (SRImages images)))
         (fun w => Loop.fire w 0 u1 u2))
      (fun w => Loop.fire w 0 u3 u4)
    = Some w
    /\ Loop.searches w = [] /\ Loop.timers w = []
    /\ responsesOf (Loop.performed w) = [200]
    /\ sends (Loop.performed w)
       = sends (App.sendTextMessage (sender_id event)
                  "Ik ben nu een schilderij aan het ophalen...")
         ++ sends (App.sendTextMessage (sender_id event) (caption images))
         ++ sends (App.sendImageMessage (sender_id event) (img_image images))
         ++ sends (App.runTask (SocialFeedback (sender_id event)) u1 u2)
         ++ sends (App.runTask (CollectionFollowUp (sender_id event) images) u3 u4)
    /\ Loop.posts w = sends (Loop.performed w)
    /\ List.length (Loop.posts w) = 7%nat
    /\ Loop.called w = map Request (Loop.posts w).
Proof.
  intros Ho Hm Hd Hp Hcollection.
  assert (Hdispatch : App.dispatch event = App.receivedPostback event p).
  { unfold App.dispatch, App.route. rewrite Ho, Hm, Hd, Hp. reflexivity. }
  unfold Loop.request, App.webhook, Sample.page.
  cbn [object entry messaging String.eqb Ascii.eqb Bool.eqb flat_map].
  rewrite Hdispatch.
  unfold Loop.complete, App.receivedPostback.
  cbn [Loop.perform Loop.idle Loop.MODE Loop.performed Loop.posts Loop.searches
       Loop.called Loop.timers app searchesOf timersOf sends nth_error
       App.sendTextMessage App.runCallback Loop.without firstn skipn].
  unfold App.postbackResponse. cbn [truthy]. rewrite Hcollection.
  eexists. split; [reflexivity|].
  repeat split.
Qed.

Lemma postback_exchange_witness :
  optin Sample2.postbackOnly = None
  /\ message Sample2.postbackOnly = None
  /\ delivery Sample2.postbackOnly = None
  /\ postback Sample2.postbackOnly = Some Sample.aPostback
  /\ truthy (img_collection Sample.nightWatch) = true
  /\ exists w,
      Conversation.andThen
        (Conversation.andThen
           (Loop.complete (Loop.request Loop.idle (Sample.page [Sample2.postbackOnly])) 0
              None (Some (SRImages Sample.nightWatch)))
           (fun w => Loop.fire w 0 Sample2.drawHalf Sample2.drawHalf))
        (fun w => Loop.fire w 0 Sample2.drawZero Sample2.drawZero)
      = Some w
      /\ Loop.searches w = [] /\ Loop.timers w = []
      /\ responsesOf (Loop.performed w) = [200]
      /\ sends (Loop.performed w)
         = sends (App.sendTextMessage (sender_id Sample2.postbackOnly)
                    "Ik ben nu een schilderij aan het ophalen...")
           ++ sends (App.sendTextMessage (sender_id Sample2.postbackOnly)
                       (caption Sample.nightWatch))
           ++ sends (App.sendImageMessage (sender_id Sample2.postbackOnly)
                       (img_image Sample.nightWatch))
           ++ sends (App.runTask (SocialFeedback (sender_id Sample2.postbackOnly))
                       Sample2.drawHalf Sample2.drawHalf)
           ++ sends (App.runTask (CollectionFollowUp (sender_id Sample2.postbackOnly)
                                    Sample.nightWatch)
                       Sample2.drawZero Sample2.drawZero)
      /\ Loop.posts w = sends (Loop.performed w)
      /\ List.length (Loop.posts w) = 7%nat
      /\ Loop.called w = map Request (Loop.posts w).
Proof.
  split; [reflexivity|]. split; [reflexivity|]. split; [reflexivity|].
  split; [reflexivity|]. split; [reflexivity|].
  exact (postback_exchange Sample2.postbackOnly Sample.aPostback Sample.nightWatch
           Sample2.drawHalf Sample2.drawHalf Sample2.drawZero Sample2.drawZero
           eq_refl eq_refl eq_refl eq_refl eq_refl).
Defined.

(** ** Mock mode *)

Lemma logs_of_calls (MODE : option string) (l : list MessageData) :
  strictEq MODE "mock" = true ->
  flat_map (App.callSendAPI MODE) l = map ConsoleLogBody l.
Proof.
  intros Hmock. unfold App.callSendAPI. rewrite Hmock.
  induction l as [|m l IH]; [reflexivity|].
  cbn [flat_map map app]. rewrite IH. reflexivity.
Qed.

Lemma mock_perform (w : Loop.World) (t : Trace) :
  Loop.mock w = true -> Loop.posts w = [] ->
  Loop.called w = map ConsoleLogBody (sends (Loop.performed w)) ->
  Loop.mock (Loop.perform w t) = true
  /\ Loop.posts (Loop.perform w t) = []
  /\ Loop.called (Loop.perform w t)
     = map ConsoleLogBody (sends (Loop.performed (Loop.perform w t))).
Proof.
  unfold Loop.mock. intros Hmock Hposts Hcalled.
  cbn [Loop.perform Loop.MODE Loop.posts Loop.called Loop.performed].
  rewrite requests_of_calls, Hmock, Hposts, Hcalled, (logs_of_calls _ _ Hmock).
  rewrite sends_app, map_app. repeat split.
Qed.

Lemma mock_turn (w w' : Loop.World) :
  Loop.mock w = true -> Loop.posts w = [] ->
  Loop.called w = map ConsoleLogBody (sends (Loop.performed w)) ->
  Loop.turn w w' ->
  Loop.mock w' = true /\ Loop.posts w' = []
  /\ Loop.called w' = map ConsoleLogBody (sends (Loop.performed w')).
Proof.
  intros Hmock Hposts Hcalled Hturn.
  destruct Hturn as [w i error response body w' H
                    | w i err data w' H
                    | w i u1 u2 w' _ _ H].
  - unfold Loop.sent in H. rewrite Hposts in H. destruct i; discriminate.
  - unfold Loop.complete in H.
    destruct (nth_error (Loop.searches w) i) as [[c k]|]; [|discriminate].
    injection H as <-. apply mock_perform; assumption.
  - unfold Loop.fire in H.
    destruct (nth_error (Loop.timers w) i) as [[task ms]|]; [|discriminate].
    injection H as <-. apply mock_perform; assumption.
Qed.

(** X23.  In mock mode, that is when [process.env.MODE] is [mock], the
    body of [callSendAPI] logs its argument and posts nothing: however
    many requests are handled and whatever turns follow, no request to
    the Send API is ever outstanding, and what [callSendAPI] has done is
    one log line of the body for each call made by a handler, a callback
    or a timer, in the order of the calls. *)
Theorem mock_mode_posts_nothing (P : string -> Prop) (w w' : Loop.World) :
  Loop.MODE w = Some "mock" -> Loop.posts w = [] ->
  Loop.called w = map ConsoleLogBody (sends (Loop.performed w)) ->
  Conversation.run P w w' ->
  Loop.MODE w' = Some "mock" /\ Loop.posts w' = []
  /\ Loop.called w' = map ConsoleLogBody (sends (Loop.performed w')).
Proof.
  intros Hmode Hposts Hcalled Hrun.
  assert (Hmock : Loop.mock w = true) by (unfold Loop.mock; rewrite Hmode; reflexivity).
  assert (Hkeep : forall v v', Conversation.run P v v' -> Loop.MODE v' = Loop.MODE v).
  { clear. intros v v' H.
    induction H as [v | v data v' _ _ IH | v v1 v' Hturn _ IH]; [reflexivity | exact IH|].
    rewrite IH. destruct Hturn as [v i error response body v1 H
                                  | v i err data v1 H
                                  | v i u1 u2 v1 _ _ H].
    - unfold Loop.sent in H. destruct (nth_error _ _); [|discriminate].
      injection H as <-. reflexivity.
    - unfold Loop.complete in H. destruct (nth_error _ _) as [[c k]|]; [|discriminate].
      injection H as <-. reflexivity.
    - unfold Loop.fire in H. destruct (nth_error _ _) as [[task ms]|]; [|discriminate].
      injection H as <-. reflexivity. }
  split; [rewrite (Hkeep w w' Hrun); exact Hmode|].
  clear Hmode Hkeep.
  induction Hrun as [w | w data w' _ _ IH | w w1 w' Hturn _ IH].
  - split; assumption.
  - destruct (mock_perform w (App.webhook data) Hmock Hposts Hcalled) as (Hm & Hp & Hc).
    apply IH; assumption.
  - destruct (mock_turn w w1 Hmock Hposts Hcalled Hturn) as (Hm & Hp & Hc).
    apply IH; assumption.
Qed.

Lemma mock_mode_posts_nothing_witness :
  Loop.MODE Sample2.mockIdle = Some "mock"
  /\ Loop.posts Sample2.mockIdle = []
  /\ Loop.called Sample2.mockIdle
     = map ConsoleLogBody (sends (Loop.performed Sample2.mockIdle))
  /\ Conversation.run (eq "1001") Sample2.mockIdle
       (Loop.request Sample2.mockIdle Sample2.oneEntry)
  /\ Loop.posts (Loop.request Sample2.mockIdle Sample2.oneEntry) = []
  /\ Loop.called (Loop.request Sample2.mockIdle Sample2.oneEntry)
     = [ConsoleLogBody
          {| recipient := "1001";
             body := TextBody "Ik ben nu aan het zoeken, een momentje..."
                       "DEVELOPER_DEFINED_METADATA" |};
        ConsoleLogBody {| recipient := "1001"; body := SenderAction "typing_on" |};
        ConsoleLogBody
          {| recipient := "1001";
             body := TextBody "Ik ben nu een schilderij aan het ophalen..."
                       "DEVELOPER_DEFINED_METADATA" |}].
Proof.
  assert (Hrun : Conversation.run (eq "1001") Sample2.mockIdle
                   (Loop.request Sample2.mockIdle Sample2.oneEntry)).
  { apply Conversation.run_request with (data := Sample2.oneEntry).
    - repeat constructor.
    - apply Conversation.run_done. }
  split; [reflexivity|]. split; [reflexivity|]. split; [reflexivity|].
  split; [exact Hrun|].
  destruct (mock_mode_posts_nothing (eq "1001") Sample2.mockIdle _
              eq_refl eq_refl eq_refl Hrun) as (_ & Hposts & Hcalled).
  split; [exact Hposts|]. rewrite Hcalled. reflexivity.
Defined.
